(** * ListingEditor: the SP-API token fetcher and the sandbox caller

    A shallow embedding of [fetch_sp_api_token.py] (both variants found in
    the repository: the dependency-free one built on [urllib], and the one
    under [src/] built on [requests] and [python-dotenv]) and of
    [src/listing_editor.py], followed by the properties the specification
    states about them.

    Conventions.
    - A Python [str] is a [string]; a character is read as the code point
      of the same number (U+0000 to U+00FF).
    - A [Dict[str, str]] is a [gmap string string].
    - A decoded JSON value is a [json] tree; a JSON object keeps its
      members in order, as an association list.
    - The file system, the HTTP peer and the JSON decoder are the outside
      world: they are fields of a [World] record, one per script.
    - The process ([os.environ], [sys.stdout], [sys.stderr]) is a [Proc]
      record threaded through a state-and-exception monad [M];
      [print] appends one entry to the chosen stream. *)

From Stdlib Require Import Ascii String ZArith Lia Bool.
From stdpp Require Import base option list strings gmap pretty.

Local Open Scope Z_scope.

(** ** Python string primitives used by the scripts *)

Module Py.

Definition LF : ascii := ascii_of_N 10.
Definition CR : ascii := ascii_of_N 13.

(** [str.isspace] on one character, as [str.strip] uses it: TAB, LF, VT,
    FF, CR, FS, GS, RS, US, SPACE, NEL and NBSP. *)
Definition isspace (c : ascii) : bool :=
  let n := N_of_ascii c in
  ((9 <=? n) && (n <=? 13) || (28 <=? n) && (n <=? 32)
   || (n =? 133) || (n =? 160))%N.

(** The line boundaries of [str.splitlines]: LF, VT, FF, CR, FS, GS, RS
    and NEL (CR LF counts as one boundary). *)
Definition islinebreak (c : ascii) : bool :=
  let n := N_of_ascii c in
  ((10 <=? n) && (n <=? 13) || (28 <=? n) && (n <=? 30) || (n =? 133))%N.

Fixpoint lstrip (s : string) : string :=
  match s with
  | EmptyString => EmptyString
  | String c s' => if isspace c then lstrip s' else s
  end.

Fixpoint rstrip (s : string) : string :=
  match s with
  | EmptyString => EmptyString
  | String c s' =>
      match rstrip s' with
      | EmptyString => if isspace c then EmptyString else String c EmptyString
      | r => String c r
      end
  end.

(** [s.strip()] *)
Definition strip (s : string) : string := rstrip (lstrip s).

(** [s.startswith(p)] *)
Fixpoint startswith (s p : string) {struct p} : bool :=
  match p, s with
  | EmptyString, _ => true
  | String _ _, EmptyString => false
  | String a p', String b s' => if ascii_dec a b then startswith s' p' else false
  end.

(** [c in s] for a one-character needle [c]. *)
Fixpoint contains (c : ascii) (s : string) : bool :=
  match s with
  | EmptyString => false
  | String a s' => if ascii_dec a c then true else contains c s'
  end.

(** [s.split(c, 1)] when [c] occurs in [s]: the text before the first
    occurrence and the text after it. (Without an occurrence Python
    returns the one-element list [[s]]; the scripts only split after
    checking [c in s].) *)
Fixpoint split1 (c : ascii) (s : string) : string * string :=
  match s with
  | EmptyString => (EmptyString, EmptyString)
  | String a s' =>
      if ascii_dec a c then (EmptyString, s')
      else let '(l, r) := split1 c s' in (String a l, r)
  end.

(** [s.splitlines()]: [cur] is the line being read, in reverse;
    [after_cr] tells that the previous character was a CR that closed a
    line, so that an LF right after it belongs to the same boundary. *)
Fixpoint splitlines_go (cur : string) (after_cr : bool) (s : string)
  : list string :=
  match s with
  | EmptyString =>
      match cur with EmptyString => [] | _ => [String.rev cur] end
  | String c s' =>
      if after_cr && bool_decide (c = LF) then splitlines_go EmptyString false s'
      else if islinebreak c
      then String.rev cur :: splitlines_go EmptyString (bool_decide (c = CR)) s'
      else splitlines_go (String c cur) false s'
  end.

Definition splitlines (s : string) : list string :=
  splitlines_go EmptyString false s.

(** Truth value of a [str]: non-empty. *)
Definition truthy (s : string) : bool :=
  match s with EmptyString => false | _ => true end.

Definition SQUOTE : ascii := ascii_of_N 39.
Definition DQUOTE : ascii := ascii_of_N 34.
Definition BACKSLASH : ascii := ascii_of_N 92.

(** [str.isprintable] on one character: the ASCII characters from the
    space to the tilde, and above them all but the controls U+0080 to
    U+009F, the no-break space and the soft hyphen. *)
Definition isprintable (c : ascii) : bool :=
  let n := N_of_ascii c in
  ((32 <=? n) && (n <=? 126) || (161 <=? n) && negb (n =? 173))%N.

Definition hexdigit (n : N) : ascii :=
  if (n <? 10)%N then ascii_of_N (48 + n) else ascii_of_N (87 + n).

(** What [repr] writes for one character of a [str] between quotes
    [quote]. *)
Definition repr_char (quote c : ascii) : string :=
  let n := N_of_ascii c in
  if bool_decide (c = quote) || bool_decide (c = BACKSLASH)
  then String BACKSLASH (String c EmptyString)
  else if (n =? 9)%N then "\t"
  else if (n =? 10)%N then "\n"
  else if (n =? 13)%N then "\r"
  else if isprintable c then String c EmptyString
  else "\x" +:+ String (hexdigit (n / 16)) (String (hexdigit (n mod 16)) EmptyString).

Fixpoint repr_chars (quote : ascii) (s : string) : string :=
  match s with
  | EmptyString => EmptyString
  | String c s' => repr_char quote c +:+ repr_chars quote s'
  end.

(** [repr(s)] of a [str]: between single quotes, or between double quotes
    when [s] holds a single quote and no double quote. *)
Definition repr (s : string) : string :=
  let quote :=
    if contains SQUOTE s && negb (contains DQUOTE s) then DQUOTE else SQUOTE in
  String quote (repr_chars quote s +:+ String quote EmptyString).

End Py.

(** ** HTTP requests, as the scripts hand them to their HTTP library *)

Module Http.

Inductive Body :=
  | NoBody
  | Bytes (b : string)                      (* [data=] given as [bytes] *)
  | Form (fields : list (string * string)). (* [data=] given as a [dict] *)

(** Header names are kept as the scripts write them. [timeout] is the
    [timeout=] argument in seconds, [None] when the call passes none. *)
Record Request := mkRequest {
  method : string;
  url : string;
  params : list (string * string);
  headers : list (string * string);
  data : Body;
  timeout : option Z
}.

End Http.

(** ** Exceptions, the process state and the monad of the scripts *)

Module Exc.

(** The exception classes that can reach the scripts. All of them derive
    from [Exception]. *)
Inductive exn_class :=
  | Exception
  | RuntimeError
  | MissingEnvironmentVariableError   (* defined by the scripts *)
  | RecursionError
  | KeyError
  | TypeError
  | ValueError
  | JSONDecodeError                   (* json.JSONDecodeError *)
  | UnicodeDecodeError
  | OSError
  | URLError                          (* urllib.error.URLError *)
  | UrllibHTTPError                   (* urllib.error.HTTPError *)
  | RequestException                  (* requests.RequestException *)
  | RequestsConnectionError
  | RequestsTimeout
  | RequestsHTTPError
  | RequestsJSONDecodeError.

Global Instance exn_class_eq_dec : EqDecision exn_class.
Proof. solve_decision. Defined.

(** The base classes of a class (the intermediate classes [LookupError]
    and [UnicodeError], which no handler of the scripts names, are left
    out). *)
Definition bases (c : exn_class) : list exn_class :=
  match c with
  | Exception => []
  | RuntimeError | KeyError | TypeError | ValueError | OSError => [Exception]
  | MissingEnvironmentVariableError | RecursionError => [RuntimeError]
  | JSONDecodeError | UnicodeDecodeError => [ValueError]
  | URLError | RequestException => [OSError]
  | UrllibHTTPError => [URLError]
  | RequestsConnectionError | RequestsTimeout | RequestsHTTPError =>
      [RequestException]
  | RequestsJSONDecodeError => [RequestException; JSONDecodeError]
  end.

(** [issubclass c base]; the hierarchy above has depth four. *)
Fixpoint issubclass_fuel (fuel : nat) (c base : exn_class) : bool :=
  bool_decide (c = base) ||
  match fuel with
  | O => false
  | S fuel' => existsb (fun b => issubclass_fuel fuel' b base) (bases c)
  end.

Definition issubclass : exn_class → exn_class → bool := issubclass_fuel 4.

(** An exception object: its class, [str(exc)] and [__cause__]. The text
    of a [KeyError] is the [repr] of the missing key. *)
#[warnings="-register-all"]
Inductive exn := Exn (cls : exn_class) (msg : string) (cause : option exn).

Definition exn_cls (e : exn) : exn_class := let 'Exn c _ _ := e in c.
Definition exn_str (e : exn) : string := let 'Exn _ m _ := e in m.
Definition exn_cause (e : exn) : option exn := let 'Exn _ _ c := e in c.

(** [isinstance(e, base)] *)
Definition isinstance (e : exn) (base : exn_class) : bool :=
  issubclass (exn_cls e) base.

Inductive result (A : Type) :=
  | Return (a : A)
  | Raise (e : exn).
Global Arguments Return {A} a.
Global Arguments Raise {A} e.

(** The part of the process the scripts read and write. Each entry of a
    stream is the text of one [print] call (the newline that [print]
    adds is left implicit). [sent] records, in order, the HTTP requests
    the process has issued. *)
Record Proc := mkProc {
  environ : gmap string string;
  stdout : list string;
  stderr : list string;
  sent : list Http.Request
}.

Definition M (A : Type) : Type := Proc → result A * Proc.

Definition ret {A} (a : A) : M A := λ st, (Return a, st).
Definition raise {A} (e : exn) : M A := λ st, (Raise e, st).
Definition bind {A B} (c : M A) (k : A → M B) : M B :=
  λ st, match c st with
        | (Return a, st') => k a st'
        | (Raise e, st') => (Raise e, st')
        end.

(** [try: c except ...: ...]: the handler gives [None] for an exception
    that none of its [except] clauses matches. *)
Definition try_except {A} (c : M A) (handler : exn → option (M A)) : M A :=
  λ st, match c st with
        | (Return a, st') => (Return a, st')
        | (Raise e, st') =>
            match handler e with
            | Some k => k st'
            | None => (Raise e, st')
            end
        end.

(** An outcome supplied by the outside world, returned or raised. *)
Definition lift {A} (r : result A) : M A := λ st, (r, st).

(** [print(s)] and [print(s, file=sys.stderr)] *)
Definition print (s : string) : M unit :=
  λ st, (Return tt, mkProc (environ st) (stdout st ++ [s]) (stderr st) (sent st)).
Definition print_stderr (s : string) : M unit :=
  λ st, (Return tt, mkProc (environ st) (stdout st) (stderr st ++ [s]) (sent st)).

(** Issuing [req]: the request goes on the wire, and the peer's answer
    (or the exception of the HTTP library) comes back. *)
Definition send {A} (peer : Http.Request → result A) (req : Http.Request) : M A :=
  λ st, (peer req,
         mkProc (environ st) (stdout st) (stderr st) (sent st ++ [req])).

(** [os.environ[name]] *)
Definition os_environ (name : string) : M string :=
  λ st, match environ st !! name with
        | Some v => (Return v, st)
        | None => (Raise (Exn KeyError (Py.repr name) None), st)
        end.

End Exc.
Import Exc.

Notation "'let*' x ':=' c 'in' k" := (bind c (λ x, k))
  (at level 10, x name, c at level 100, k at level 200).
Notation "c ';;' k" := (bind c (λ _, k))
  (at level 100, k at level 200, right associativity).

(** ** JSON values, [json.dumps(_, indent=2)] and subscripting *)

Module Json.

(** A value returned by the JSON decoder. A float is kept as the text
    that [json.dumps] writes for it. *)
#[warnings="-register-all"]
Inductive json :=
  | JNull
  | JBool (b : bool)
  | JInt (z : Z)
  | JFloat (repr : string)
  | JStr (s : string)
  | JList (items : list json)
  | JDict (members : list (string * json)).

(** The members of a [JDict] are in insertion order; a [dict] holds no key
    twice. *)

(** The outcome of decoding a text as JSON: a value, or a
    [JSONDecodeError] with its message. *)
Inductive decoded :=
  | Decoded (v : json)
  | Invalid (msg : string).

Definition dquote : string := String (ascii_of_N 34) EmptyString.

Definition hexdigit (n : N) : ascii :=
  if (n <? 10)%N then ascii_of_N (48 + n) else ascii_of_N (87 + n).

(** The escape of one character inside a JSON string, with
    [ensure_ascii=True]. *)
Definition escape_char (c : ascii) : string :=
  let n := N_of_ascii c in
  if (n =? 34)%N then "\" +:+ dquote
  else if (n =? 92)%N then "\\"
  else if (n =? 10)%N then "\n"
  else if (n =? 13)%N then "\r"
  else if (n =? 9)%N then "\t"
  else if (n =? 8)%N then "\b"
  else if (n =? 12)%N then "\f"
  else if ((32 <=? n) && (n <=? 126))%N then String c EmptyString
  else "\u00" +:+ String (hexdigit (n / 16)) (String (hexdigit (n mod 16)) EmptyString).

Fixpoint escape (s : string) : string :=
  match s with
  | EmptyString => EmptyString
  | String c s' => escape_char c +:+ escape s'
  end.

Definition quote (s : string) : string := dquote +:+ escape s +:+ dquote.

(** A newline followed by [level] indentation steps of two spaces. *)
Definition newline_indent (level : nat) : string :=
  String Py.LF (String.concat EmptyString (replicate level "  ")).

Definition join (sep : string) (l : list string) : string :=
  String.concat sep l.

(** [json.dumps(v, indent=2)], at nesting depth [level]. *)
Fixpoint dumps_at (level : nat) (v : json) : string :=
  match v with
  | JNull => "null"
  | JBool true => "true"
  | JBool false => "false"
  | JInt z => pretty z
  | JFloat r => r
  | JStr s => quote s
  | JList [] => "[]"
  | JList l =>
      "[" +:+ newline_indent (S level)
      +:+ join ("," +:+ newline_indent (S level)) (map (dumps_at (S level)) l)
      +:+ newline_indent level +:+ "]"
  | JDict [] => "{}"
  | JDict l =>
      "{" +:+ newline_indent (S level)
      +:+ join ("," +:+ newline_indent (S level))
            (map (λ kv, quote (fst kv) +:+ ": " +:+ dumps_at (S level) (snd kv)) l)
      +:+ newline_indent level +:+ "}"
  end.

Definition dumps_indent2 (v : json) : string := dumps_at 0 v.

(** [d[key]] on a [dict]. *)
Fixpoint dict_get (key : string) (members : list (string * json))
  : option json :=
  match members with
  | [] => None
  | (k, v) :: rest => if decide (k = key) then Some v else dict_get key rest
  end.

(** [v[key]] for a [str] key: a [dict] is looked up and raises
    [KeyError] when the key is missing; any other value raises
    [TypeError]. *)
Definition getitem (v : json) (key : string) : M json :=
  match v with
  | JDict members =>
      match dict_get key members with
      | Some x => ret x
      | None => raise (Exn KeyError (Py.repr key) None)
      end
  | JList _ =>
      raise (Exn TypeError "list indices must be integers or slices, not str" None)
  | JStr _ =>
      raise (Exn TypeError "string indices must be integers, not 'str'" None)
  | JNull =>
      raise (Exn TypeError "'NoneType' object is not subscriptable" None)
  | JBool _ =>
      raise (Exn TypeError "'bool' object is not subscriptable" None)
  | JInt _ =>
      raise (Exn TypeError "'int' object is not subscriptable" None)
  | JFloat _ =>
      raise (Exn TypeError "'float' object is not subscriptable" None)
  end.

End Json.
Import Json.

(** [str(v)] for a decoded JSON value, as [print(v)] writes it. [repr_of]
    stands for [repr] on the values whose text depends on the float and
    container formatting of the interpreter. *)
Definition py_str (repr_of : json → string) (v : json) : string :=
  match v with
  | JStr s => s
  | JNull => "None"
  | JBool true => "True"
  | JBool false => "False"
  | JInt z => pretty z
  | _ => repr_of v
  end.

(** ** [fetch_sp_api_token.py] at the repository root, built on [urllib] *)

Module Urllib.

Definition TOKEN_ENDPOINT : string := "https://api.amazon.com/auth/o2/token".
Definition FORM_CONTENT_TYPE : string :=
  "application/x-www-form-urlencoded;charset=UTF-8".
Definition ENV_FILENAME : string := ".env".

(** What [urlopen] gets from the peer once redirections are done: the
    status line, and the outcome of [response.read().decode("utf-8")]
    ([UnicodeDecodeError] when the body is not UTF-8). *)
Record HTTPResponse := mkHTTPResponse {
  status : Z;
  reason : string;
  read_decode_utf8 : result string
}.

Record World := mkWorld {
  (** the text [read_text] gives for [Path.cwd() / ".env"], [None] when
      the file does not exist *)
  env_file : option string;
  (** the peer's final answer to a request, or the [URLError] of a
      failed connection *)
  peer : Http.Request → result HTTPResponse;
  (** [json.loads] *)
  json_decoder : string → decoded;
  repr_of : json → string
}.

(** [json.loads(text)] *)
Definition json_loads (w : World) (text : string) : M json :=
  match json_decoder w text with
  | Decoded v => ret v
  | Invalid msg => raise (Exn JSONDecodeError msg None)
  end.

(** One turn of the [for line in ...] loop of [load_env_file]. *)
Definition env_line (values : gmap string string) (line : string)
  : gmap string string :=
  let stripped := Py.strip line in
  if negb (Py.truthy stripped) || Py.startswith stripped "#" then values
  else if negb (Py.contains "=" stripped) then values
  else
    let '(name, value) := Py.split1 "=" stripped in
    <[Py.strip name := Py.strip value]> values.

(** [load_env_file(path)]: the argument is the text of the file at
    [path], or [None] when [path.exists()] is false. *)
Definition load_env_file (file : option string) : gmap string string :=
  match file with
  | None => ∅
  | Some text => foldl env_line ∅ (Py.splitlines text)
  end.

Definition missing_message (name : string) : string :=
  "Required variable '" +:+ name +:+ "' is not defined in "
  +:+ ENV_FILENAME +:+ " or the environment.".

(** The [try: return os.environ[name] except KeyError] of
    [get_env_value]. *)
Definition environ_or_missing (name : string) : M string :=
  try_except (os_environ name)
    (λ exc, if isinstance exc KeyError
            then Some (raise (Exn MissingEnvironmentVariableError
                                (missing_message name) (Some exc)))
            else None).

Definition get_env_value (name : string) (env_file_values : gmap string string)
  : M string :=
  match env_file_values !! name with
  | Some value =>
      if Py.truthy value then ret value else environ_or_missing name
  | None => environ_or_missing name
  end.

(** [urllib.parse.quote_plus] on one character: unreserved characters
    stay, a space becomes [+], anything else is the percent-escape of its
    UTF-8 bytes. *)
Definition always_safe (c : ascii) : bool :=
  let n := N_of_ascii c in
  ((65 <=? n) && (n <=? 90) || (97 <=? n) && (n <=? 122)
   || (48 <=? n) && (n <=? 57)
   || (n =? 95) || (n =? 46) || (n =? 45) || (n =? 126))%N.

Definition HEXDIGIT (n : N) : ascii :=
  if (n <? 10)%N then ascii_of_N (48 + n) else ascii_of_N (55 + n).

Definition percent (byte : N) : string :=
  String "%" (String (HEXDIGIT (byte / 16)) (String (HEXDIGIT (byte mod 16)) EmptyString)).

Definition utf8 (c : ascii) : list N :=
  let n := N_of_ascii c in
  if (n <? 128)%N then [n] else [192 + n / 64; 128 + n mod 64]%N.

Definition quote_plus_char (c : ascii) : string :=
  if decide (c = " "%char) then "+"
  else if always_safe c then String c EmptyString
  else String.concat EmptyString (percent <$> utf8 c).

Fixpoint quote_plus (s : string) : string :=
  match s with
  | EmptyString => EmptyString
  | String c s' => quote_plus_char c +:+ quote_plus s'
  end.

(** [urllib.parse.urlencode] of a [dict], given in insertion order. *)
Definition urlencode (query : list (string * string)) : string :=
  String.concat "&" ((λ kv, quote_plus (fst kv) +:+ "=" +:+ quote_plus (snd kv)) <$> query).

Definition build_request_payload (client_id client_secret refresh_token : string)
  : string :=
  let payload :=
    [("client_id", client_id);
     ("client_secret", client_secret);
     ("grant_type", "refresh_token");
     ("refresh_token", refresh_token)] in
  urlencode payload.

(** [request.Request(TOKEN_ENDPOINT, data=payload, method="POST")] followed
    by [req.add_header("Content-Type", FORM_CONTENT_TYPE)]. *)
Definition token_request (payload : string) : Http.Request :=
  {| Http.method := "POST";
     Http.url := TOKEN_ENDPOINT;
     Http.params := [];
     Http.headers := [("Content-Type", FORM_CONTENT_TYPE)];
     Http.data := Http.Bytes payload;
     Http.timeout := None |}.

(** [request.urlopen(req)]: an answer outside 2xx is raised as
    [HTTPError]. *)
Definition urlopen (w : World) (req : Http.Request) : M HTTPResponse :=
  let* response := send (peer w) req in
  if (200 <=? status response) && (status response <? 300)
  then ret response
  else raise (Exn UrllibHTTPError
                ("HTTP Error " +:+ pretty (status response) +:+ ": "
                 +:+ reason response) None).

Definition fetch_access_token (w : World) : M json :=
  let env_values := load_env_file (env_file w) in
  let* client_id := get_env_value "SP_API_CLIENT_ID" env_values in
  let* client_secret := get_env_value "SP_API_SECRET" env_values in
  let* refresh_token := get_env_value "SP_API_TOKEN" env_values in
  let payload := build_request_payload client_id client_secret refresh_token in
  let req := token_request payload in
  let* response := urlopen w req in
  let* response_text := lift (read_decode_utf8 response) in
  let* response_json :=
    try_except (json_loads w response_text)
      (λ exc, if isinstance exc JSONDecodeError
              then Some (raise (Exn RuntimeError
                     ("Amazon SP-API token endpoint returned non-JSON response: "
                      +:+ response_text) (Some exc)))
              else None) in
  let* access_token :=
    try_except (getitem response_json "access_token")
      (λ exc, if isinstance exc KeyError
              then Some (raise (Exn RuntimeError
                     "Response JSON is missing the 'access_token' field."
                     (Some exc)))
              else None) in
  print_stderr (dumps_indent2 response_json) ;;
  ret access_token.

(** The [__main__] block: the exit status of the process and its final
    state. *)
Definition main (w : World) (st : Proc) : Z * Proc :=
  match fetch_access_token w st with
  | (Raise error, st') =>
      if isinstance error MissingEnvironmentVariableError
      then (1, snd (print_stderr (exn_str error) st'))
      else if isinstance error Exception
      then (1, snd (print_stderr
                      ("Failed to retrieve access token: " +:+ exn_str error) st'))
      else (1, st')  (* not reached: every class derives from Exception *)
  | (Return token, st') => (0, snd (print (py_str (repr_of w) token) st'))
  end.

End Urllib.

(** ** [src/fetch_sp_api_token.py], built on [requests] and [python-dotenv] *)

Module Requests.

Definition TOKEN_ENDPOINT : string := "https://api.amazon.com/auth/o2/token".
Definition FORM_CONTENT_TYPE : string :=
  "application/x-www-form-urlencoded;charset=UTF-8".

(** A [requests.Response]: [json_body] is what [response.json()] finds in
    the body. *)
Record Response := mkResponse {
  status_code : Z;
  reason : string;
  url : string;
  text : string;
  json_body : decoded
}.

Record World := mkWorld {
  (** the variables [python-dotenv] reads from the [.env] file it finds
      (none when there is no such file) *)
  dotenv_values : gmap string string;
  (** the peer's final answer to a request, or the
      [requests.RequestException] of a failed exchange *)
  peer : Http.Request → result Response;
  repr_of : Json.json → string
}.

(** [load_dotenv()]: the variables of the file are added to [os.environ];
    a variable that the environment already has keeps its value. *)
Definition load_dotenv (w : World) : M bool :=
  λ st, (Return true,
         mkProc (environ st ∪ dotenv_values w) (stdout st) (stderr st) (sent st)).

Definition missing_message (name : string) : string :=
  "Required variable '" +:+ name +:+ "' is not defined in .env or the environment.".

Definition get_env_value (name : string) : M string :=
  try_except (os_environ name)
    (λ exc, if isinstance exc KeyError
            then Some (raise (Exn MissingEnvironmentVariableError
                                (missing_message name) (Some exc)))
            else None).

Definition build_request_payload (client_id client_secret refresh_token : string)
  : list (string * string) :=
  [("client_id", client_id);
   ("client_secret", client_secret);
   ("grant_type", "refresh_token");
   ("refresh_token", refresh_token)].

(** The request of
    [requests.post(TOKEN_ENDPOINT, data=payload, headers=headers, timeout=30)]. *)
Definition token_request (payload headers : list (string * string))
  : Http.Request :=
  {| Http.method := "POST";
     Http.url := TOKEN_ENDPOINT;
     Http.params := [];
     Http.headers := headers;
     Http.data := Http.Form payload;
     Http.timeout := Some 30 |}.

(** [response.json()] *)
Definition json (response : Response) : M Json.json :=
  match json_body response with
  | Decoded v => ret v
  | Invalid msg => raise (Exn RequestsJSONDecodeError msg None)
  end.

(** [response.raise_for_status()]: [HTTPError] for 4xx and 5xx. *)
Definition raise_for_status (response : Response) : M unit :=
  let code := status_code response in
  if (400 <=? code) && (code <? 500)
  then raise (Exn RequestsHTTPError
                (pretty code +:+ " Client Error: " +:+ reason response
                 +:+ " for url: " +:+ url response) None)
  else if (500 <=? code) && (code <? 600)
  then raise (Exn RequestsHTTPError
                (pretty code +:+ " Server Error: " +:+ reason response
                 +:+ " for url: " +:+ url response) None)
  else ret tt.

Definition fetch_access_token (w : World) : M Json.json :=
  load_dotenv w ;;
  let* client_id := get_env_value "SP_API_CLIENT_ID" in
  let* client_secret := get_env_value "SP_API_SECRET" in
  let* refresh_token := get_env_value "SP_API_TOKEN" in
  let payload := build_request_payload client_id client_secret refresh_token in
  let headers := [("Content-Type", FORM_CONTENT_TYPE)] in
  let* response :=
    try_except
      (let* response := send (peer w) (token_request payload headers) in
       raise_for_status response ;;
       ret response)
      (λ exc, if isinstance exc RequestException
              then Some (raise (Exn RuntimeError
                     ("Failed to fetch access token: " +:+ exn_str exc)
                     (Some exc)))
              else None) in
  let response_text := text response in
  let* response_json :=
    try_except (json response)
      (λ exc, if isinstance exc JSONDecodeError || isinstance exc ValueError
              then Some (raise (Exn RuntimeError
                     ("Amazon SP-API token endpoint returned non-JSON response: "
                      +:+ response_text) (Some exc)))
              else None) in
  let* access_token :=
    try_except (getitem response_json "access_token")
      (λ exc, if isinstance exc KeyError
              then Some (raise (Exn RuntimeError
                     "Response JSON is missing the 'access_token' field."
                     (Some exc)))
              else None) in
  print_stderr (dumps_indent2 response_json) ;;
  ret access_token.

(** The [__main__] block: the exit status of the process and its final
    state. *)
Definition main (w : World) (st : Proc) : Z * Proc :=
  match fetch_access_token w st with
  | (Raise error, st') =>
      if isinstance error MissingEnvironmentVariableError
      then (1, snd (print_stderr (exn_str error) st'))
      else if isinstance error Exception
      then (1, snd (print_stderr
                      ("Failed to retrieve access token: " +:+ exn_str error) st'))
      else (1, st')  (* not reached: every class derives from Exception *)
  | (Return token, st') => (0, snd (print (py_str (repr_of w) token) st'))
  end.

End Requests.

(** ** [src/listing_editor.py] *)

Module ListingEditor.

Definition sandbox_endpoints : gmap string string :=
  {[ "NA" := "sandbox.sellingpartnerapi-na.amazon.com";
     "EU" := "sandbox.sellingpartnerapi-eu.amazon.com";
     "FE" := "sandbox.sellingpartnerapi-fe.amazon.com" ]}.

(** [d[key]] on a [Dict[str, str]]. *)
Definition dict_getitem (d : gmap string string) (key : string) : M string :=
  match d !! key with
  | Some v => ret v
  | None => raise (Exn KeyError (Py.repr key) None)
  end.

(** The request of [requests.get(url, headers=headers, params=params)]. *)
Definition get_request (url : string) (headers params : list (string * string))
  : Http.Request :=
  {| Http.method := "GET";
     Http.url := url;
     Http.params := params;
     Http.headers := headers;
     Http.data := Http.NoBody;
     Http.timeout := None |}.

Definition fetch_example (w : Requests.World)
    (sandbox_endpoints : gmap string string) (token : string) : M Json.json :=
  let* endpoint := dict_getitem sandbox_endpoints "NA" in
  let url := "https://" +:+ endpoint +:+ "/orders/v0/orders" in
  let params :=
    [("MarketplaceIds", "ATVPDKIKX0DER");
     ("CreatedAfter", "TEST_CASE_200")] in
  let headers :=
    [("x-amz-access-token", token);
     ("Content-Type", "application/json");
     ("User-Agent", "My-Testing-App/1.0")] in
  let* response := send (Requests.peer w) (get_request url headers params) in
  print (pretty (Requests.status_code response)) ;;
  Requests.json response.

End ListingEditor.

(** ** The configuration file, as the specification words it *)

Module FileSpec.

(** A blank line: nothing but whitespace. *)
Fixpoint blank (line : string) : bool :=
  match line with
  | EmptyString => true
  | String c rest => Py.isspace c && blank rest
  end.

Fixpoint first_non_whitespace (line : string) : option ascii :=
  match line with
  | EmptyString => None
  | String c rest => if Py.isspace c then first_non_whitespace rest else Some c
  end.

(** A comment line: its first non-whitespace character is [#]. *)
Definition comment (line : string) : bool :=
  bool_decide (first_non_whitespace line = Some "#"%char).

Definition ignored (line : string) : bool :=
  blank line || comment line || negb (Py.contains "=" line).

(** What a line assigns: nothing when it is ignored; otherwise the line
    is split at its first [=] and both sides are trimmed. *)
Definition assignment (line : string) : option (string * string) :=
  if ignored line then None
  else let '(key, value) := Py.split1 "=" line in
       Some (Py.strip key, Py.strip value).

Definition assign (values : gmap string string) (line : string)
  : gmap string string :=
  match assignment line with
  | Some (key, value) => <[key := value]> values
  | None => values
  end.

End FileSpec.

(** ** The error kinds of the specification, as the scripts raise them *)

Module ErrorKinds.

Definition MissingVariable (name : string) (e : exn) : Prop :=
  exn_cls e = MissingEnvironmentVariableError
  ∧ exn_str e
    = "Required variable '" +:+ name
      +:+ "' is not defined in .env or the environment.".




(** The request failed: a [RuntimeError] that wraps [cause]. *)
Definition RequestFailed (cause e : exn) : Prop :=
  e = Exn RuntimeError ("Failed to fetch access token: " +:+ exn_str cause)
        (Some cause).





End ErrorKinds.

(** ** The credentials, as each script resolves them *)

Module Credentials.

(** The three calls of [get_env_value] in the [urllib] script return
    these values. *)
Definition urllib (w : Urllib.World) (st : Proc)
    (client_id client_secret refresh_token : string) : Prop :=
  let env_values := Urllib.load_env_file (Urllib.env_file w) in
  Urllib.get_env_value "SP_API_CLIENT_ID" env_values st = (Return client_id, st)
  ∧ Urllib.get_env_value "SP_API_SECRET" env_values st
    = (Return client_secret, st)
  ∧ Urllib.get_env_value "SP_API_TOKEN" env_values st
    = (Return refresh_token, st).

(** The state of the process once [load_dotenv()] has run. *)
Definition loaded (w : Requests.World) (st : Proc) : Proc :=
  (Requests.load_dotenv w st).2.

(** The three calls of [get_env_value] in the [requests] script, which
    run after [load_dotenv()], return these values. *)
Definition requests (w : Requests.World) (st : Proc)
    (client_id client_secret refresh_token : string) : Prop :=
  let st1 := loaded w st in
  Requests.get_env_value "SP_API_CLIENT_ID" st1 = (Return client_id, st1)
  ∧ Requests.get_env_value "SP_API_SECRET" st1 = (Return client_secret, st1)
  ∧ Requests.get_env_value "SP_API_TOKEN" st1 = (Return refresh_token, st1).

(** The token request each script builds from the credentials. *)
Definition urllib_request (client_id client_secret refresh_token : string)
  : Http.Request :=
  Urllib.token_request
    (Urllib.build_request_payload client_id client_secret refresh_token).

Definition requests_request (client_id client_secret refresh_token : string)
  : Http.Request :=
  Requests.token_request
    (Requests.build_request_payload client_id client_secret refresh_token)
    [("Content-Type", Requests.FORM_CONTENT_TYPE)].

(** The state after the one request [req] has gone out. *)
Definition after_send (st : Proc) (req : Http.Request) : Proc :=
  mkProc (environ st) (stdout st) (stderr st) (sent st ++ [req]).

End Credentials.

(** ** What a computation does to the streams and to the wire *)

Module Effects.

(** [c] takes every state to one that [R] relates to it. *)
Definition preserves (R : relation Proc) {A} (c : M A) : Prop :=
  ∀ st, R st (c st).2.

(** Both streams are as they were. *)
Definition quiet : relation Proc :=
  λ st st', stdout st' = stdout st ∧ stderr st' = stderr st.

(** The requests issued in between all satisfy [P]. *)
Definition sends (P : Http.Request → Prop) : relation Proc :=
  λ st st', ∃ new, sent st' = sent st ++ new ∧ Forall P new.

(** [c] leaves standard output alone; it adds exactly one entry to
    standard error when it returns, and none when it raises. *)
Definition reports {A} (c : M A) : Prop :=
  ∀ st,
    stdout (c st).2 = stdout st
    ∧ match (c st).1 with
      | Return _ => ∃ diagnostic, stderr (c st).2 = stderr st ++ [diagnostic]
      | Raise _ => stderr (c st).2 = stderr st
      end.

(** The exit status and the streams the specification asks of the entry
    point, given the outcome [fetched] of [fetch_access_token] from the
    state [st]: [final] is the exit status with the final state. *)
Definition entry_point (repr_of : json → string) (fetched : result json)
    (st : Proc) (final : Z * Proc) : Prop :=
  match fetched with
  | Return token =>
      final.1 = 0
      ∧ stdout final.2 = stdout st ++ [py_str repr_of token]
      ∧ ∃ diagnostic, stderr final.2 = stderr st ++ [diagnostic]
  | Raise e =>
      final.1 = 1
      ∧ stdout final.2 = stdout st
      ∧ stderr final.2
        = stderr st
          ++ [if isinstance e MissingEnvironmentVariableError
              then exn_str e
              else "Failed to retrieve access token: " +:+ exn_str e]
  end.

(** A POST to the token endpoint with the form content type and the
    given timeout. *)
Definition token_post (timeout : option Z) (req : Http.Request) : Prop :=
  Http.method req = "POST"
  ∧ Http.url req = "https://api.amazon.com/auth/o2/token"
  ∧ Http.headers req
    = [("Content-Type", "application/x-www-form-urlencoded;charset=UTF-8")]
  ∧ Http.timeout req = timeout.

(** The request the specification asks of the sandbox caller for the
    region NA. *)
Definition sandbox_orders_request (token : string) : Http.Request :=
  {| Http.method := "GET";
     Http.url := "https://sandbox.sellingpartnerapi-na.amazon.com/orders/v0/orders";
     Http.params :=
       [("MarketplaceIds", "ATVPDKIKX0DER"); ("CreatedAfter", "TEST_CASE_200")];
     Http.headers :=
       [("x-amz-access-token", token);
        ("Content-Type", "application/json");
        ("User-Agent", "My-Testing-App/1.0")];
     Http.data := Http.NoBody;
     Http.timeout := None |}.

End Effects.

(** ** Sample inputs *)

Module Samples.

Definition nl : string := String Py.LF EmptyString.

(** The text [ # comment\n\nFOO = bar \n]. *)
Definition commented_env : string :=
  " # comment" +:+ nl +:+ nl +:+ "FOO = bar " +:+ nl.

(** The text [A=1\nB = x=y\nA = 3 \n# A=4\n]. *)
Definition repeated_env : string :=
  "A=1" +:+ nl +:+ "B = x=y" +:+ nl +:+ "A = 3 " +:+ nl +:+ "# A=4" +:+ nl.

(** The same text without its first line. *)
Definition repeated_env_tail : string :=
  "B = x=y" +:+ nl +:+ "A = 3 " +:+ nl +:+ "# A=4" +:+ nl.

(** [s] between double quotes. *)
Definition q (s : string) : string := dquote +:+ s +:+ dquote.

Definition credentials_env : string :=
  "SP_API_CLIENT_ID=id" +:+ nl +:+ "SP_API_SECRET=secret" +:+ nl
  +:+ "SP_API_TOKEN = refresh" +:+ nl.

(** The body [{"access_token": "abc123", "expires_in": 3600}]. *)
Definition token_body : string :=
  "{" +:+ q "access_token" +:+ ": " +:+ q "abc123" +:+ ", "
  +:+ q "expires_in" +:+ ": 3600}".
Definition token_json : json :=
  JDict [("access_token", JStr "abc123"); ("expires_in", JInt 3600)].

(** The body [{"error": "invalid_grant"}]. *)
Definition error_body : string :=
  "{" +:+ q "error" +:+ ": " +:+ q "invalid_grant" +:+ "}".
Definition error_json : json := JDict [("error", JStr "invalid_grant")].

(** A JSON decoder good enough for the sample bodies. *)
Definition decoder (text : string) : decoded :=
  if decide (text = token_body) then Decoded token_json
  else if decide (text = error_body) then Decoded error_json
  else if decide (text = "[]") then Decoded (JList [])
  else Invalid "Expecting value: line 1 column 1 (char 0)".

Definition repr_of (v : json) : string := dumps_indent2 v.

Definition st0 : Proc := mkProc ∅ [] [] [].

(** A process whose environment defines [HOME] and [SP_API_SECRET]. *)
Definition st_env : Proc :=
  mkProc {[ "HOME" := "/root"; "SP_API_SECRET" := "from-env" ]} [] [] [].

(** A world for the [urllib] script: the three credentials are in the
    file, and the peer answers every request with [reply]. *)
Definition urllib_world (reply : result Urllib.HTTPResponse) : Urllib.World :=
  {| Urllib.env_file := Some credentials_env;
     Urllib.peer := λ _, reply;
     Urllib.json_decoder := decoder;
     Urllib.repr_of := repr_of |}.

Definition urllib_ok (body : string) : result Urllib.HTTPResponse :=
  Return (Urllib.mkHTTPResponse 200 "OK" (Return body)).

Definition urllib_status (code : Z) (reason body : string)
  : result Urllib.HTTPResponse :=
  Return (Urllib.mkHTTPResponse code reason (Return body)).

Definition connection_refused : exn :=
  Exn URLError "<urlopen error [Errno 111] Connection refused>" None.

(** A world for the [requests] script. *)
Definition requests_world (reply : result Requests.Response) : Requests.World :=
  {| Requests.dotenv_values :=
       {[ "SP_API_CLIENT_ID" := "id"; "SP_API_SECRET" := "secret";
          "SP_API_TOKEN" := "refresh" ]};
     Requests.peer := λ _, reply;
     Requests.repr_of := repr_of |}.

Definition requests_reply (code : Z) (reason body : string)
  : result Requests.Response :=
  Return (Requests.mkResponse code reason Requests.TOKEN_ENDPOINT body
            (decoder body)).

Definition connection_error : exn :=
  Exn RequestsConnectionError "Connection refused" None.

(** A world for the [urllib] script in which no credential is defined. *)
Definition urllib_bare : Urllib.World :=
  {| Urllib.env_file := None;
     Urllib.peer := λ _, urllib_ok token_body;
     Urllib.json_decoder := decoder;
     Urllib.repr_of := repr_of |}.

End Samples.


(** ** Counting characters, and writing a configuration file *)

Module Text.

(** Some character of [s] satisfies [p]. *)
Fixpoint any (p : ascii → bool) (s : string) : bool :=
  match s with
  | EmptyString => false
  | String a s' => p a || any p s'
  end.

(** The number of occurrences of [c] in [s]. *)
Fixpoint count (c : ascii) (s : string) : nat :=
  match s with
  | EmptyString => O
  | String a s' => (if ascii_dec a c then 1 else 0)%nat + count c s'
  end.

(** A character of the ASCII range. *)
Definition is_ascii (a : ascii) : bool := (N_of_ascii a <? 128)%N.

End Text.

Module EnvWriter.

(** The line [KEY=VALUE]. *)
Definition line_of (kv : string * string) : string :=
  kv.1 +:+ String "=" kv.2.

(** A file with one [KEY=VALUE] line per pair, each ended by a line
    feed. *)
Fixpoint render (pairs : list (string * string)) : string :=
  match pairs with
  | [] => EmptyString
  | kv :: rest => line_of kv +:+ String Py.LF (render rest)
  end.

(** A key that a line can carry: trimmed, on one line, without [=] and not
    opening a comment. *)
Definition writable_key (key : string) : Prop :=
  Py.strip key = key
  ∧ Text.any Py.islinebreak key = false
  ∧ Py.contains "=" key = false
  ∧ Py.startswith key "#" = false.

(** A value that a line can carry: trimmed and on one line. *)
Definition writable_value (value : string) : Prop :=
  Py.strip value = value ∧ Text.any Py.islinebreak value = false.

Definition writable (kv : string * string) : Prop :=
  writable_key kv.1 ∧ writable_value kv.2.

End EnvWriter.

(** ** What a computation does to the environment *)

Module Frame.

(** The environment is as it was. *)
Definition same_environ : relation Proc :=
  λ st st', environ st' = environ st.

(** No request has been issued in between. *)
Definition same_sent : relation Proc :=
  λ st st', sent st' = sent st.

(** The request of [fetch_example] when the table gives [host] for the
    region NA. *)
Definition orders_request (host token : string) : Http.Request :=
  {| Http.method := "GET";
     Http.url := "https://" +:+ host +:+ "/orders/v0/orders";
     Http.params :=
       [("MarketplaceIds", "ATVPDKIKX0DER"); ("CreatedAfter", "TEST_CASE_200")];
     Http.headers :=
       [("x-amz-access-token", token);
        ("Content-Type", "application/json");
        ("User-Agent", "My-Testing-App/1.0")];
     Http.data := Http.NoBody;
     Http.timeout := None |}.

End Frame.

(** ** Reading back what [quote_plus] writes *)

Module FormDecoder.

(** The value of a hexadecimal digit in upper case. *)
Definition hexval (a : ascii) : N :=
  let n := N_of_ascii a in
  (if n <? 58 then n - 48 else n - 55)%N.

Definition byte_of (h1 h2 : ascii) : N := (16 * hexval h1 + hexval h2)%N.

(** The inverse of [quote_plus] on the texts it writes: [+] is a space,
    [%XX] a byte, and a lead byte from 192 on takes the byte after it to
    form one character. *)
Fixpoint unquote_plus (s : string) : string :=
  match s with
  | EmptyString => EmptyString
  | String a r =>
      if decide (a = "+"%char) then String " " (unquote_plus r)
      else if decide (a = "%"%char) then
        match r with
        | String h1 (String h2 r') =>
            let b := byte_of h1 h2 in
            if (b <? 128)%N then String (ascii_of_N b) (unquote_plus r')
            else
              match r' with
              | String _ (String h3 (String h4 r'')) =>
                  String (ascii_of_N ((b - 192) * 64 + (byte_of h3 h4 - 128)))
                    (unquote_plus r'')
              | _ => String a (unquote_plus r)
              end
        | _ => String a (unquote_plus r)
        end
      else String a (unquote_plus r)
  end.

End FormDecoder.

(** ** More sample inputs *)

Module MoreSamples.

(** The text [# only a comment\n   \nno equals sign]. *)
Definition idle_env : string :=
  "# only a comment" +:+ Samples.nl +:+ "   " +:+ Samples.nl
  +:+ "no equals sign".

(** Pairs to write to a file; the key [A] comes twice. *)
Definition pairs : list (string * string) :=
  [("A", "1"); ("B", "x=y"); ("A", "3")].

(** A process whose environment sets [SP_API_SECRET] and leaves
    [SP_API_TOKEN] empty. *)
Definition st_empty_token : Proc :=
  mkProc {[ "SP_API_SECRET" := "from-env"; "SP_API_TOKEN" := EmptyString ]}
    [] [] [].

(** A world for the [requests] script whose file defines [SP_API_SECRET]
    and an empty [SP_API_CLIENT_ID]. *)
Definition requests_partial : Requests.World :=
  {| Requests.dotenv_values :=
       {[ "SP_API_CLIENT_ID" := EmptyString; "SP_API_SECRET" := "from-file" ]};
     Requests.peer := λ _, Samples.requests_reply 200 "OK" Samples.token_body;
     Requests.repr_of := Samples.repr_of |}.

(** A world for the [urllib] script whose file lacks [SP_API_TOKEN]. *)
Definition urllib_no_token : Urllib.World :=
  {| Urllib.env_file :=
       Some ("SP_API_CLIENT_ID=id" +:+ Samples.nl +:+ "SP_API_SECRET=secret");
     Urllib.peer := λ _, Samples.urllib_ok Samples.token_body;
     Urllib.json_decoder := Samples.decoder;
     Urllib.repr_of := Samples.repr_of |}.

(** An answer whose body is not UTF-8. *)
Definition not_utf8 : exn :=
  Exn UnicodeDecodeError
    "'utf-8' codec can't decode byte 0xff in position 0: invalid start byte"
    None.

Definition urllib_garbled : result Urllib.HTTPResponse :=
  Return (Urllib.mkHTTPResponse 200 "OK" (Raise not_utf8)).

(** A table of endpoints without the region NA. *)
Definition endpoints_without_NA : gmap string string :=
  {[ "EU" := "sandbox.sellingpartnerapi-eu.amazon.com" ]}.

(** The text [SP_API_TOKEN=old\nSP_API_TOKEN=\n]. *)
Definition emptied_env : string :=
  "SP_API_TOKEN=old" +:+ Samples.nl +:+ "SP_API_TOKEN=" +:+ Samples.nl.

(** A process whose environment sets [SP_API_TOKEN]. *)
Definition st_token : Proc :=
  mkProc {[ "SP_API_TOKEN" := "from-env" ]} [] [] [].

End MoreSamples.
(** * Properties *)

(** ** The primitives on small inputs *)

Section examples.

Import Samples.

Example splitlines_breaks :
  Py.splitlines ("a" +:+ String Py.CR nl +:+ "b" +:+ nl +:+ nl +:+ "c" +:+ nl)
  = ["a"; "b"; EmptyString; "c"].
Proof. reflexivity. Qed.

Example splitlines_empty : Py.splitlines EmptyString = [].
Proof. reflexivity. Qed.

Example strip_both_ends :
  Py.strip (String (ascii_of_N 9) " a b  " +:+ nl) = "a b".
Proof. reflexivity. Qed.

Example split1_first_equals : Py.split1 "=" "K=a=b" = ("K", "a=b").
Proof. reflexivity. Qed.

Example build_request_payload_quotes :
  Urllib.build_request_payload "a b" "c&d=~" (String (ascii_of_N 233) "+")
  = "client_id=a+b&client_secret=c%26d%3D~&grant_type=refresh_token&refresh_token=%C3%A9%2B".
Proof. reflexivity. Qed.

Example dumps_token_json :
  dumps_indent2 token_json
  = "{" +:+ nl +:+ "  " +:+ q "access_token" +:+ ": " +:+ q "abc123" +:+ ","
    +:+ nl +:+ "  " +:+ q "expires_in" +:+ ": 3600" +:+ nl +:+ "}".
Proof. reflexivity. Qed.

Example dumps_nested :
  dumps_indent2 (JDict [("a", JList [JInt (-1); JNull; JDict []]); ("b", JList [])])
  = "{" +:+ nl +:+ "  " +:+ q "a" +:+ ": [" +:+ nl +:+ "    -1," +:+ nl
    +:+ "    null," +:+ nl +:+ "    {}" +:+ nl +:+ "  ]," +:+ nl
    +:+ "  " +:+ q "b" +:+ ": []" +:+ nl +:+ "}".
Proof. reflexivity. Qed.

Example repr_quotes :
  Py.repr "NA" = "'NA'"
  ∧ Py.repr "it's" = q "it's"
  ∧ Py.repr ("it's " +:+ q "x") = "'it\'s " +:+ q "x" +:+ "'"
  ∧ Py.repr ("a\b" +:+ nl) = "'a\\b\n'"
  ∧ Py.repr (String (ascii_of_N 160) (String (ascii_of_N 233) EmptyString))
    = "'\xa0" +:+ String (ascii_of_N 233) "'".
Proof. repeat split; reflexivity. Qed.

Example issubclass_requests_json :
  issubclass RequestsJSONDecodeError ValueError = true
  ∧ issubclass UrllibHTTPError RequestException = false.
Proof. split; reflexivity. Qed.

End examples.

(** ** Trimming, searching and splitting *)

Section strings.

Implicit Types (s : string) (c : ascii).

Lemma rstrip_cons_nonspace c s :
  Py.isspace c = false → Py.rstrip (String c s) = String c (Py.rstrip s).
Proof. intros Hc. simpl. rewrite Hc. by destruct (Py.rstrip s). Qed.

Lemma rstrip_cons_nonempty c s :
  Py.rstrip s ≠ EmptyString → Py.rstrip (String c s) = String c (Py.rstrip s).
Proof. intros Hs. simpl. by destruct (Py.rstrip s). Qed.

Lemma lstrip_blank s : FileSpec.blank s = true → Py.lstrip s = EmptyString.
Proof.
  induction s as [|c s IH]; simpl; [done|].
  intros [Hc Hs]%andb_true_iff. rewrite Hc. auto.
Qed.

Lemma lstrip_first s c :
  FileSpec.first_non_whitespace s = Some c →
  Py.isspace c = false ∧ ∃ rest, Py.lstrip s = String c rest.
Proof.
  induction s as [|a s IH]; simpl; [done|].
  destruct (Py.isspace a) eqn:Ha; [auto|].
  intros [= ->]. eauto.
Qed.

Lemma first_non_whitespace_None s :
  FileSpec.first_non_whitespace s = None ↔ FileSpec.blank s = true.
Proof.
  induction s as [|a s IH]; simpl; [done|].
  destruct (Py.isspace a); simpl; [done|]. split; discriminate.
Qed.

Lemma lstrip_idem s : Py.lstrip (Py.lstrip s) = Py.lstrip s.
Proof.
  induction s as [|a s IH]; simpl; [done|].
  destruct (Py.isspace a) eqn:Ha; [done|]. simpl. by rewrite Ha.
Qed.

Lemma rstrip_idem s : Py.rstrip (Py.rstrip s) = Py.rstrip s.
Proof.
  induction s as [|a s IH]; [done|]. simpl.
  destruct (Py.rstrip s) as [|b r] eqn:Hr.
  - destruct (Py.isspace a) eqn:Ha; [done|]. simpl. by rewrite Ha.
  - rewrite rstrip_cons_nonempty; rewrite IH; done.
Qed.

Lemma lstrip_rstrip s : Py.lstrip (Py.rstrip s) = Py.rstrip (Py.lstrip s).
Proof.
  induction s as [|a s IH]; [done|].
  destruct (Py.isspace a) eqn:Ha.
  - simpl. rewrite Ha. destruct (Py.rstrip s) as [|b r] eqn:Hr.
    + by rewrite <- IH.
    + rewrite <- IH. simpl. by rewrite Ha.
  - rewrite rstrip_cons_nonspace by done. simpl. rewrite Ha.
    by rewrite rstrip_cons_nonspace.
Qed.

Lemma contains_lstrip c s :
  Py.isspace c = false → Py.contains c (Py.lstrip s) = Py.contains c s.
Proof.
  intros Hc. induction s as [|a s IH]; simpl; [done|].
  destruct (Py.isspace a) eqn:Ha; [|done].
  destruct (ascii_dec a c) as [->|]; [congruence|done].
Qed.

Lemma contains_rstrip c s :
  Py.isspace c = false → Py.contains c (Py.rstrip s) = Py.contains c s.
Proof.
  intros Hc. induction s as [|a s IH]; [done|]. simpl.
  destruct (Py.rstrip s) as [|b r] eqn:Hr.
  - destruct (Py.isspace a) eqn:Ha; simpl.
    + destruct (ascii_dec a c) as [->|]; [congruence|]. by rewrite <- IH.
    + destruct (ascii_dec a c); [done|]. by rewrite <- IH.
  - simpl in *. by rewrite IH.
Qed.

Lemma contains_strip c s :
  Py.isspace c = false → Py.contains c (Py.strip s) = Py.contains c s.
Proof.
  intros Hc. unfold Py.strip. by rewrite contains_rstrip, contains_lstrip.
Qed.

Lemma split1_lstrip c s :
  Py.isspace c = false →
  Py.split1 c (Py.lstrip s)
  = (Py.lstrip (Py.split1 c s).1, (Py.split1 c s).2).
Proof.
  intros Hc. induction s as [|a s IH]; simpl; [done|].
  destruct (Py.isspace a) eqn:Ha.
  - destruct (ascii_dec a c) as [->|]; [congruence|].
    destruct (Py.split1 c s) as [l r]. simpl in *. by rewrite Ha.
  - simpl. destruct (ascii_dec a c); [done|].
    destruct (Py.split1 c s) as [l r]. simpl. by rewrite Ha.
Qed.

Lemma split1_rstrip c s :
  Py.isspace c = false → Py.contains c s = true →
  Py.split1 c (Py.rstrip s)
  = ((Py.split1 c s).1, Py.rstrip (Py.split1 c s).2).
Proof.
  intros Hc. induction s as [|a s IH]; [done|].
  intros Hin. simpl in Hin. destruct (ascii_dec a c) as [->|Hne].
  - rewrite rstrip_cons_nonspace by done. simpl.
    destruct (ascii_dec c c); [done|congruence].
  - specialize (IH Hin).
    assert (Py.rstrip (String a s) = String a (Py.rstrip s)) as ->.
    { simpl. destruct (Py.rstrip s) eqn:Hr; [|done].
      rewrite <- (contains_rstrip c s), Hr in Hin by done. done. }
    simpl. destruct (ascii_dec a c); [done|]. rewrite IH.
    by destruct (Py.split1 c s).
Qed.

Lemma split1_app c k v :
  Py.contains c k = false →
  Py.split1 c (k +:+ String c v) = (k, v).
Proof.
  induction k as [|a k IH]; simpl.
  - intros _. change (Py.split1 c (String c v) = (EmptyString, v)).
    simpl. destruct (ascii_dec c c); [done|congruence].
  - destruct (ascii_dec a c); [done|]. intros Hk. by rewrite IH.
Qed.

Lemma split1_contains c s :
  Py.contains c s = true →
  s = (Py.split1 c s).1 +:+ String c (Py.split1 c s).2
  ∧ Py.contains c (Py.split1 c s).1 = false.
Proof.
  induction s as [|a s IH]; simpl; [done|].
  destruct (ascii_dec a c) as [->|Hne] eqn:Hd; [done|].
  intros [IH1 IH2]%IH. destruct (Py.split1 c s) as [l r]. simpl in *.
  rewrite Hd. split; [|done].
  change (String a s = String a (l +:+ String c r)). by f_equal.
Qed.

End strings.

(** ** The configuration file parser *)

Section load_env_file.

Implicit Types (values : gmap string string) (line text : string).

Lemma strip_split1 c s :
  Py.isspace c = false → Py.contains c s = true →
  Py.strip (Py.split1 c (Py.strip s)).1 = Py.strip (Py.split1 c s).1
  ∧ Py.strip (Py.split1 c (Py.strip s)).2 = Py.strip (Py.split1 c s).2.
Proof.
  intros Hc Hin.
  assert (Py.split1 c (Py.strip s)
          = (Py.lstrip (Py.split1 c s).1, Py.rstrip (Py.split1 c s).2)) as ->.
  { unfold Py.strip.
    by rewrite split1_rstrip, split1_lstrip by (by rewrite ?contains_lstrip). }
  simpl. unfold Py.strip. split.
  - by rewrite lstrip_idem.
  - by rewrite lstrip_rstrip, rstrip_idem.
Qed.

(** The loop body of [load_env_file] does to the mapping what the
    specification says of a line. *)
Lemma env_line_assign values line :
  Urllib.env_line values line = FileSpec.assign values line.
Proof.
  unfold Urllib.env_line, FileSpec.assign, FileSpec.assignment, FileSpec.ignored,
    FileSpec.comment.
  destruct (FileSpec.first_non_whitespace line) as [c|] eqn:Hfirst.
  - assert (FileSpec.blank line = false) as ->.
    { apply not_true_is_false. intros Hb%first_non_whitespace_None. congruence. }
    destruct (lstrip_first _ _ Hfirst) as [Hc [rest Hrest]].
    assert (Py.strip line = String c (Py.rstrip rest)) as Hstrip.
    { unfold Py.strip. rewrite Hrest. by apply rstrip_cons_nonspace. }
    rewrite <- (contains_strip "=" line) by done.
    pose proof (strip_split1 "=" line eq_refl) as Hsplit.
    rewrite <- (contains_strip "=" line) in Hsplit by done.
    rewrite Hstrip in *. cbn [Py.truthy Py.startswith negb orb].
    destruct (ascii_dec "#" c) as [<-|Hne].
    + by rewrite bool_decide_eq_true_2.
    + rewrite bool_decide_eq_false_2 by congruence. cbn [orb].
      destruct (Py.contains "=" (String c (Py.rstrip rest))) eqn:Hin; [|done].
      cbn [negb].
      destruct (Hsplit eq_refl) as [Hk Hv].
      destruct (Py.split1 "=" (String c (Py.rstrip rest))) as [k v].
      destruct (Py.split1 "=" line) as [k' v']. simpl in Hk, Hv.
      by rewrite Hk, Hv.
  - apply first_non_whitespace_None in Hfirst as Hb. rewrite Hb.
    unfold Py.strip. by rewrite lstrip_blank.
Qed.

Lemma load_env_file_assign text :
  Urllib.load_env_file (Some text)
  = foldl FileSpec.assign ∅ (Py.splitlines text).
Proof.
  unfold Urllib.load_env_file. generalize (∅ : gmap string string).
  induction (Py.splitlines text) as [|line lines IH]; intros m; simpl; [done|].
  by rewrite env_line_assign, IH.
Qed.

End load_env_file.

Section load_env_file_claims.

Implicit Types (values : gmap string string) (line text : string).

Lemma contains_app_here c k v : Py.contains c (k +:+ String c v) = true.
Proof.
  induction k as [|a k IH]; simpl.
  - destruct (ascii_dec c c); [done|congruence].
  - by destruct (ascii_dec a c).
Qed.

Lemma contains_not_blank c s :
  Py.isspace c = false → Py.contains c s = true → FileSpec.blank s = false.
Proof.
  intros Hc. induction s as [|a s IH]; simpl; [done|].
  destruct (ascii_dec a c) as [->|].
  - by rewrite Hc.
  - intros ->%IH. by rewrite andb_false_r.
Qed.

Lemma assignment_key_value key value :
  Py.contains "=" key = false →
  FileSpec.comment (key +:+ "=" +:+ value) = false →
  FileSpec.assignment (key +:+ "=" +:+ value)
  = Some (Py.strip key, Py.strip value).
Proof.
  intros Hkey Hcomment. unfold FileSpec.assignment, FileSpec.ignored.
  change ("=" +:+ value) with (String "=" value) in *.
  rewrite Hcomment, contains_app_here.
  rewrite (contains_not_blank "=") by (done || apply contains_app_here).
  simpl. by rewrite split1_app.
Qed.

Lemma assign_Some values line key value :
  FileSpec.assignment line = Some (key, value) →
  FileSpec.assign values line = <[key := value]> values.
Proof. intros Hline. unfold FileSpec.assign. by rewrite Hline. Qed.

Lemma foldl_assign_lookup_eq lines values1 values2 key :
  values1 !! key = values2 !! key →
  foldl FileSpec.assign values1 lines !! key
  = foldl FileSpec.assign values2 lines !! key.
Proof.
  revert values1 values2.
  induction lines as [|line lines IH]; intros m1 m2 Hm; simpl; [done|].
  apply IH. unfold FileSpec.assign.
  destruct (FileSpec.assignment line) as [[k v]|]; [|done].
  destruct (decide (k = key)) as [->|].
  - by rewrite !lookup_insert_eq.
  - by rewrite !lookup_insert_ne.
Qed.

Lemma foldl_assign_keeps lines values key value :
  values !! key = Some value →
  (∀ later value', later ∈ lines →
     FileSpec.assignment later ≠ Some (key, value')) →
  foldl FileSpec.assign values lines !! key = Some value.
Proof.
  revert values.
  induction lines as [|line lines IH]; intros m Hm Hlater; simpl; [done|].
  apply IH.
  - unfold FileSpec.assign.
    destruct (FileSpec.assignment line) as [[k v]|] eqn:Hline; [|done].
    destruct (decide (k = key)) as [->|].
    + exfalso. eapply Hlater; [|done]. apply list_elem_of_here.
    + by rewrite lookup_insert_ne.
  - intros later v' Hin. apply Hlater. by apply list_elem_of_further.
Qed.

(** C5. The parser of the configuration file ignores blank lines, comment
    lines (first non-whitespace character [#]) and lines without [=];
    every other line is split at its first [=] into a key and a value,
    both trimmed, so that a value may hold further [=]. The text
    [ # comment\n\nFOO = bar \n] gives exactly [{"FOO": "bar"}], and an
    absent file gives the empty mapping. *)
Theorem load_env_file_lines :
  Urllib.load_env_file None = ∅
  ∧ Urllib.load_env_file (Some Samples.commented_env) = {[ "FOO" := "bar" ]}
  ∧ (∀ text,
       Urllib.load_env_file (Some text)
       = foldl FileSpec.assign ∅ (Py.splitlines text))
  ∧ (∀ values line,
       FileSpec.blank line = true ∨ FileSpec.comment line = true
       ∨ Py.contains "=" line = false →
       Urllib.env_line values line = values)
  ∧ (∀ values key value,
       Py.contains "=" key = false →
       FileSpec.comment (key +:+ "=" +:+ value) = false →
       Urllib.env_line values (key +:+ "=" +:+ value)
       = <[Py.strip key := Py.strip value]> values).
Proof.
  split; [done|]. split; [by vm_compute|].
  split; [apply load_env_file_assign|]. split.
  - intros values line Hline. rewrite env_line_assign.
    unfold FileSpec.assign, FileSpec.assignment, FileSpec.ignored.
    destruct Hline as [-> | [-> | ->]]; by rewrite ?orb_true_r.
  - intros values key value Hkey Hcomment.
    rewrite env_line_assign. unfold FileSpec.assign.
    by rewrite assignment_key_value.
Qed.

Lemma load_env_file_lines_witness :
  Urllib.env_line {[ "FOO" := "old" ]} "   # FOO = new" = {[ "FOO" := "old" ]}
  ∧ Urllib.env_line {[ "FOO" := "old" ]} (" FOO " +:+ "=" +:+ " a=b ")
    = <[Py.strip " FOO " := Py.strip " a=b "]> {[ "FOO" := "old" ]}.
Proof.
  destruct load_env_file_lines as (_ & _ & _ & Hignored & Hassigned).
  split.
  - apply Hignored. right; left. reflexivity.
  - apply Hassigned; reflexivity.
Defined.

(** C10. When several lines of the configuration file assign the same
    trimmed key, [load_env_file] gives that key the trimmed value of the
    last of them, and an earlier one has no effect on the mapping. *)
Theorem load_env_file_last_assignment_wins :
  (∀ text before line after key value,
     Py.splitlines text = before ++ line :: after →
     FileSpec.assignment line = Some (key, value) →
     (∀ later value', later ∈ after →
        FileSpec.assignment later ≠ Some (key, value')) →
     Urllib.load_env_file (Some text) !! key = Some value)
  ∧ (∀ text text' before earlier between line after key value0 value,
       Py.splitlines text = before ++ earlier :: between ++ line :: after →
       Py.splitlines text' = before ++ between ++ line :: after →
       FileSpec.assignment earlier = Some (key, value0) →
       FileSpec.assignment line = Some (key, value) →
       Urllib.load_env_file (Some text) = Urllib.load_env_file (Some text')).
Proof.
  split.
  - intros text before line after key value Hlines Hline Hlater.
    rewrite load_env_file_assign, Hlines, foldl_app. simpl.
    apply foldl_assign_keeps; [|done].
    rewrite (assign_Some _ _ _ _ Hline). apply lookup_insert_eq.
  - intros text text' before earlier between line after key value0 value
      Htext Htext' Hearlier Hline.
    rewrite !load_env_file_assign, Htext, Htext'.
    rewrite !foldl_app. simpl. rewrite !foldl_app. simpl.
    f_equal. rewrite !(assign_Some _ _ _ _ Hline), (assign_Some _ _ _ _ Hearlier).
    apply map_eq. intros j. destruct (decide (key = j)) as [<-|].
    + by rewrite !lookup_insert_eq.
    + rewrite !lookup_insert_ne by done.
      apply foldl_assign_lookup_eq. by rewrite lookup_insert_ne.
Qed.

Lemma load_env_file_last_assignment_wins_witness :
  Urllib.load_env_file (Some Samples.repeated_env) !! "A" = Some "3"
  ∧ Urllib.load_env_file (Some Samples.repeated_env)
    = Urllib.load_env_file (Some Samples.repeated_env_tail).
Proof.
  destruct load_env_file_last_assignment_wins as [Hlast Hearlier]. split.
  - apply (Hlast Samples.repeated_env ["A=1"; "B = x=y"] "A = 3 " ["# A=4"]).
    + reflexivity.
    + reflexivity.
    + intros later value' Hin Hassign.
      apply list_elem_of_singleton in Hin as ->. discriminate Hassign.
  - apply (Hearlier Samples.repeated_env Samples.repeated_env_tail
             [] "A=1" ["B = x=y"] "A = 3 " ["# A=4"] "A" "1" "3");
      reflexivity.
Defined.

End load_env_file_claims.

(** ** The configuration resolver *)

Section get_env_value.

Implicit Types (name : string) (env_file_values : gmap string string)
  (st : Proc).

Lemma environ_or_missing_set name value st :
  environ st !! name = Some value →
  Urllib.environ_or_missing name st = (Return value, st).
Proof.
  intros Henv. unfold Urllib.environ_or_missing, try_except, os_environ.
  by rewrite Henv.
Qed.

Lemma environ_or_missing_unset name st :
  environ st !! name = None →
  Urllib.environ_or_missing name st
  = (Raise (Exn MissingEnvironmentVariableError (Urllib.missing_message name)
              (Some (Exn KeyError (Py.repr name) None))), st).
Proof.
  intros Henv. unfold Urllib.environ_or_missing, try_except, os_environ.
  by rewrite Henv.
Qed.

Lemma truthy_nonempty (value : string) :
  value ≠ EmptyString → Py.truthy value = true.
Proof. by destruct value. Qed.

(** C4. [get_env_value] returns the value of the configuration file when
    the file defines the key with a non-empty value, whatever the process
    environment holds for that key; when the file has no entry for the key,
    or an empty one, it returns the value the process environment gives
    to the key, if it is set. *)
Theorem get_env_value_file_then_environ name env_file_values st :
  (∀ value, env_file_values !! name = Some value → value ≠ EmptyString →
     Urllib.get_env_value name env_file_values st = (Return value, st))
  ∧ (∀ value,
       env_file_values !! name = None
       ∨ env_file_values !! name = Some EmptyString →
       environ st !! name = Some value →
       Urllib.get_env_value name env_file_values st = (Return value, st)).
Proof.
  unfold Urllib.get_env_value. split.
  - intros value -> Hvalue. by rewrite truthy_nonempty.
  - intros value [-> | ->] Henv; simpl; by apply environ_or_missing_set.
Qed.

Lemma get_env_value_file_then_environ_witness :
  Urllib.get_env_value "SP_API_SECRET"
    (Urllib.load_env_file (Some Samples.credentials_env)) Samples.st_env
  = (Return "secret", Samples.st_env)
  ∧ Urllib.get_env_value "SP_API_SECRET" (Urllib.load_env_file None)
      Samples.st_env
    = (Return "from-env", Samples.st_env).
Proof.
  split.
  - apply (proj1 (get_env_value_file_then_environ "SP_API_SECRET" _ _));
      [reflexivity|done].
  - apply (proj2 (get_env_value_file_then_environ "SP_API_SECRET" _ _));
      [left; reflexivity | reflexivity].
Defined.

(** C6. For a variable that the configuration file does not define with a
    non-empty value and that the process environment does not set, the
    resolver of the root script raises [MissingEnvironmentVariableError]
    with a message that names the variable, and returns no value. The
    resolver of the script under [src/] does so for a variable that
    [os.environ] lacks when it is called, hence for one that the file does
    not define at all; but where the file defines the variable with the
    empty value, [load_dotenv()] has put that value in [os.environ], and the
    resolver returns the empty string: the script goes on and posts the
    token request with it. *)
Theorem get_env_value_missing name :
  (∀ env_file_values st,
     env_file_values !! name = None
     ∨ env_file_values !! name = Some EmptyString →
     environ st !! name = None →
     ∃ e, Urllib.get_env_value name env_file_values st = (Raise e, st)
          ∧ ErrorKinds.MissingVariable name e)
  ∧ (∀ st,
       environ st !! name = None →
       ∃ e, Requests.get_env_value name st = (Raise e, st)
            ∧ ErrorKinds.MissingVariable name e)
  ∧ (∀ w st,
       Requests.dotenv_values w !! name = None →
       environ st !! name = None →
       ∃ e, ((Requests.load_dotenv w ;; Requests.get_env_value name) st).1
            = Raise e
            ∧ ErrorKinds.MissingVariable name e)
  ∧ (∀ w st,
       Requests.dotenv_values w !! name = Some EmptyString →
       environ st !! name = None →
       ((Requests.load_dotenv w ;; Requests.get_env_value name) st).1
       = Return EmptyString)
  ∧ Requests.dotenv_values MoreSamples.requests_partial !! "SP_API_CLIENT_ID"
    = Some EmptyString
  ∧ environ MoreSamples.st_empty_token !! "SP_API_CLIENT_ID" = None
  ∧ sent (Requests.fetch_access_token MoreSamples.requests_partial
            MoreSamples.st_empty_token).2
    = [Credentials.requests_request EmptyString "from-env" EmptyString].
Proof.
  split; [|split; [|split; [|split]]].
  - intros env_file_values st Hfile Henv. eexists. split.
    + unfold Urllib.get_env_value.
      destruct Hfile as [-> | ->]; simpl; by apply environ_or_missing_unset.
    + done.
  - intros st Henv. eexists. split.
    + unfold Requests.get_env_value, try_except, os_environ. by rewrite Henv.
    + done.
  - intros w st Hfile Henv. eexists. split.
    + unfold bind, Requests.load_dotenv, Requests.get_env_value, try_except,
        os_environ. simpl.
      assert ((environ st ∪ Requests.dotenv_values w) !! name = None) as ->;
        [|done].
      apply lookup_union_None. done.
    + done.
  - intros w st Hfile Henv.
    unfold bind, Requests.load_dotenv, Requests.get_env_value, try_except,
      os_environ. cbn [environ].
    by rewrite lookup_union_r, Hfile.
  - split; [reflexivity|]. split; [reflexivity|]. by vm_compute.
Qed.

Lemma get_env_value_missing_witness :
  (∃ e, Urllib.get_env_value "SP_API_TOKEN" (Urllib.load_env_file None)
          Samples.st_env = (Raise e, Samples.st_env)
        ∧ ErrorKinds.MissingVariable "SP_API_TOKEN" e)
  ∧ (∃ e, Requests.get_env_value "SP_API_TOKEN" Samples.st_env
          = (Raise e, Samples.st_env)
          ∧ ErrorKinds.MissingVariable "SP_API_TOKEN" e)
  ∧ ((Requests.load_dotenv MoreSamples.requests_partial ;;
      Requests.get_env_value "SP_API_CLIENT_ID") MoreSamples.st_empty_token).1
    = Return EmptyString.
Proof.
  destruct (get_env_value_missing "SP_API_TOKEN")
    as (Hfile & Henv & _).
  destruct (get_env_value_missing "SP_API_CLIENT_ID")
    as (_ & _ & _ & Hempty & _).
  split; [|split].
  - apply Hfile; [left|]; reflexivity.
  - apply Henv. reflexivity.
  - apply Hempty; reflexivity.
Defined.

End get_env_value.

(** ** Streams and wire: how effects compose *)

Section effects.

Import Effects.

Context {A B : Type}.
Implicit Types (R : relation Proc) (P : Http.Request → Prop).

Global Instance quiet_preorder : PreOrder quiet.
Proof.
  split.
  - by intros st.
  - intros st1 st2 st3 [Ho He] [Ho' He']. split; congruence.
Qed.

Global Instance sends_preorder P : PreOrder (sends P).
Proof.
  split.
  - intros st. exists []. by rewrite app_nil_r.
  - intros st1 st2 st3 (new & Hnew & HP) (new' & Hnew' & HP').
    exists (new ++ new'). split.
    + by rewrite Hnew', Hnew, app_assoc.
    + by apply Forall_app.
Qed.

Lemma preserves_ret R `{!Reflexive R} (a : A) : preserves R (ret a).
Proof. intros st. simpl. reflexivity. Qed.

Lemma preserves_raise R `{!Reflexive R} e : preserves R (raise (A:=A) e).
Proof. intros st. simpl. reflexivity. Qed.

Lemma preserves_lift R `{!Reflexive R} (r : result A) : preserves R (lift r).
Proof. intros st. simpl. reflexivity. Qed.

Lemma preserves_bind R `{!Transitive R} (c : M A) (k : A → M B) :
  preserves R c → (∀ a, preserves R (k a)) → preserves R (bind c k).
Proof.
  intros Hc Hk st. unfold bind. specialize (Hc st).
  destruct (c st) as [[a|e] st']; simpl in *; [|done].
  etrans; [done|]. apply Hk.
Qed.

(** Every [try] of the scripts re-raises a wrapped exception. *)
Lemma preserves_try_except R (c : M A) (test : exn → bool) (wrap : exn → exn) :
  preserves R c →
  preserves R
    (try_except c (λ exc, if test exc then Some (raise (wrap exc)) else None)).
Proof.
  intros Hc st. unfold try_except. specialize (Hc st).
  destruct (c st) as [[a|e] st']; simpl in *; [done|].
  by destruct (test e).
Qed.

End effects.

Section effects_of_primitives.

Import Effects.

Implicit Types (R : relation Proc) (P : Http.Request → Prop).

Lemma preserves_os_environ R `{!Reflexive R} name :
  preserves R (os_environ name).
Proof.
  intros st. unfold os_environ. destruct (environ st !! name); simpl; reflexivity.
Qed.

Lemma preserves_getitem R `{!Reflexive R} v key : preserves R (getitem v key).
Proof.
  intros st. unfold getitem.
  destruct v; try (simpl; reflexivity).
  destruct (dict_get key members); simpl; reflexivity.
Qed.

Lemma quiet_send {A} (peer : Http.Request → result A) req :
  preserves quiet (send peer req).
Proof. by intros st. Qed.

Lemma sends_send {A} P (peer : Http.Request → result A) req :
  P req → preserves (sends P) (send peer req).
Proof. intros HP st. exists [req]. split; [done|]. by apply Forall_singleton. Qed.

Lemma sends_print_stderr P s : preserves (sends P) (print_stderr s).
Proof. intros st. exists []. simpl. by rewrite app_nil_r. Qed.

Lemma reports_bind {A B} (c : M A) (k : A → M B) :
  preserves quiet c → (∀ a, reports (k a)) → reports (bind c k).
Proof.
  intros Hc Hk st. unfold bind. destruct (Hc st) as [Ho He].
  destruct (c st) as [[a|e] st']; simpl in *; [|done].
  destruct (Hk a st') as [Ho' He']. rewrite Ho', Ho. split; [done|].
  destruct (k a st').1; by rewrite <- He.
Qed.

Lemma reports_print_stderr {A} s (a : A) :
  reports (print_stderr s ;; ret a).
Proof. intros st. simpl. eauto. Qed.

End effects_of_primitives.

(** ** The token client *)

Section status_codes.

Implicit Types code : Z.

Lemma status_2xx code :
  200 ≤ code < 300 → (200 <=? code) && (code <? 300) = true.
Proof. lia. Qed.

Lemma status_not_2xx code :
  ¬ (200 ≤ code < 300) → (200 <=? code) && (code <? 300) = false.
Proof. lia. Qed.

Lemma status_error code :
  400 ≤ code < 600 →
  (400 <=? code) && (code <? 500) = true
  ∨ (400 <=? code) && (code <? 500) = false
    ∧ (500 <=? code) && (code <? 600) = true.
Proof. lia. Qed.

Lemma status_no_error code :
  ¬ (400 ≤ code < 600) →
  (400 <=? code) && (code <? 500) = false
  ∧ (500 <=? code) && (code <? 600) = false.
Proof. lia. Qed.

End status_codes.


(** An outcome that is an exception of the expected kind. *)
Ltac raises := eexists; split; [reflexivity | by repeat split].

(** *** The [urllib] script, once its credentials are resolved *)

Section urllib_client.

Import ErrorKinds Credentials.

Context (w : Urllib.World) (st : Proc).
Context (client_id client_secret refresh_token : string).
Hypothesis credentials : urllib w st client_id client_secret refresh_token.

Local Abbreviation req :=
  (urllib_request client_id client_secret refresh_token).

(** The script up to the answer of the peer. *)
Ltac run Hpeer :=
  pose proof credentials as (Hid & Hsecret & Htoken);
  unfold Urllib.fetch_access_token, bind;
  rewrite Hid, Hsecret, Htoken;
  unfold Urllib.urlopen, bind, send;
  unfold urllib_request in Hpeer; rewrite Hpeer.

Lemma urllib_fetch_ok response body members token :
  Urllib.peer w req = Return response →
  200 ≤ Urllib.status response < 300 →
  Urllib.read_decode_utf8 response = Return body →
  Urllib.json_decoder w body = Decoded (JDict members) →
  dict_get "access_token" members = Some token →
  Urllib.fetch_access_token w st
  = (Return token,
     mkProc (environ st) (stdout st)
       (stderr st ++ [dumps_indent2 (JDict members)])
       (sent st ++ [req])).
Proof.
  intros Hpeer Hstatus Hread Hjson Hfield.
  run Hpeer. rewrite (status_2xx _ Hstatus).
  unfold ret at 1. unfold lift. rewrite Hread.
  unfold try_except, Urllib.json_loads. rewrite Hjson. unfold ret at 1.
  unfold getitem. by rewrite Hfield.
Qed.


(** The exception of a failed connection reaches the caller as it is. *)
Lemma urllib_fetch_no_reply cause :
  Urllib.peer w req = Raise cause →
  Urllib.fetch_access_token w st = (Raise cause, after_send st req).
Proof. intros Hpeer. by run Hpeer. Qed.

Lemma urllib_fetch_http_error response :
  Urllib.peer w req = Return response →
  ¬ (200 ≤ Urllib.status response < 300) →
  Urllib.fetch_access_token w st
  = (Raise (Exn UrllibHTTPError
              ("HTTP Error " +:+ pretty (Urllib.status response) +:+ ": "
               +:+ Urllib.reason response) None),
     after_send st req).
Proof.
  intros Hpeer Hstatus. run Hpeer. by rewrite (status_not_2xx _ Hstatus).
Qed.

End urllib_client.

(** *** The [requests] script, once its credentials are resolved *)

Section requests_client.

Import ErrorKinds Credentials.

Context (w : Requests.World) (st : Proc).
Context (client_id client_secret refresh_token : string).
Hypothesis credentials : requests w st client_id client_secret refresh_token.

Local Abbreviation req :=
  (requests_request client_id client_secret refresh_token).

(** The script up to the answer of the peer. *)
Ltac run Hpeer :=
  pose proof credentials as (Hid & Hsecret & Htoken);
  unfold Requests.fetch_access_token, bind;
  change (Requests.load_dotenv w st) with (Return true, loaded w st);
  cbv iota; rewrite Hid, Hsecret, Htoken;
  unfold try_except, bind, send;
  unfold requests_request in Hpeer; rewrite Hpeer.

Lemma requests_fetch_ok response members token :
  Requests.peer w req = Return response →
  ¬ (400 ≤ Requests.status_code response < 600) →
  Requests.json_body response = Decoded (JDict members) →
  dict_get "access_token" members = Some token →
  Requests.fetch_access_token w st
  = (Return token,
     mkProc (environ (loaded w st)) (stdout st)
       (stderr st ++ [dumps_indent2 (JDict members)])
       (sent st ++ [req])).
Proof.
  intros Hpeer Hstatus Hjson Hfield.
  run Hpeer. unfold Requests.raise_for_status.
  destruct (status_no_error _ Hstatus) as [-> ->].
  unfold ret at 1 2. unfold Requests.json. rewrite Hjson. unfold ret at 1.
  unfold getitem. by rewrite Hfield.
Qed.


(** A [RequestException] of [requests.post] is wrapped. *)
Lemma requests_fetch_no_reply cause :
  Requests.peer w req = Raise cause →
  isinstance cause RequestException = true →
  ∃ e, (Requests.fetch_access_token w st).1 = Raise e ∧ RequestFailed cause e.
Proof.
  intros Hpeer Hclass. run Hpeer. rewrite Hclass. raises.
Qed.

(** So is the [HTTPError] of [raise_for_status]. *)
Lemma requests_fetch_http_error response :
  Requests.peer w req = Return response →
  400 ≤ Requests.status_code response < 600 →
  ∃ cause e,
    exn_cls cause = RequestsHTTPError
    ∧ (Requests.fetch_access_token w st).1 = Raise e
    ∧ RequestFailed cause e.
Proof.
  intros Hpeer Hstatus. run Hpeer. unfold Requests.raise_for_status.
  destruct (status_error _ Hstatus) as [-> | [-> ->]];
    (eexists; eexists; split; [|split; [reflexivity|reflexivity]]); done.
Qed.

End requests_client.

Section token_client.

Import ErrorKinds Credentials.


(** C1. When the body of the answer of the token endpoint parses as a JSON
    object that has the member [access_token], [fetch_access_token] returns
    the value of that member and nothing else (in a token response, a
    string), writes the whole decoded object, pretty-printed, to standard
    error, and writes nothing to standard output. The answer is one that the
    script takes as a success: a 2xx status for [urllib], a status that
    [raise_for_status] lets through for [requests]. *)
Theorem fetch_access_token_returns_the_token :
  (∀ w st client_id client_secret refresh_token response body members token,
     urllib w st client_id client_secret refresh_token →
     Urllib.peer w (urllib_request client_id client_secret refresh_token)
     = Return response →
     200 ≤ Urllib.status response < 300 →
     Urllib.read_decode_utf8 response = Return body →
     Urllib.json_decoder w body = Decoded (JDict members) →
     dict_get "access_token" members = Some token →
     Urllib.fetch_access_token w st
     = (Return token,
        mkProc (environ st) (stdout st)
          (stderr st ++ [dumps_indent2 (JDict members)])
          (sent st ++ [urllib_request client_id client_secret refresh_token])))
  ∧ (∀ w st client_id client_secret refresh_token response members token,
       requests w st client_id client_secret refresh_token →
       Requests.peer w (requests_request client_id client_secret refresh_token)
       = Return response →
       ¬ (400 ≤ Requests.status_code response < 600) →
       Requests.json_body response = Decoded (JDict members) →
       dict_get "access_token" members = Some token →
       Requests.fetch_access_token w st
       = (Return token,
          mkProc (environ (loaded w st)) (stdout st)
            (stderr st ++ [dumps_indent2 (JDict members)])
            (sent st
             ++ [requests_request client_id client_secret refresh_token]))).
Proof. split; eauto using urllib_fetch_ok, requests_fetch_ok. Qed.

Lemma fetch_access_token_returns_the_token_witness :
  Urllib.fetch_access_token
    (Samples.urllib_world (Samples.urllib_ok Samples.token_body)) Samples.st0
  = (Return (JStr "abc123"),
     mkProc ∅ [] [dumps_indent2 Samples.token_json]
       [urllib_request "id" "secret" "refresh"])
  ∧ Requests.fetch_access_token
      (Samples.requests_world
         (Samples.requests_reply 200 "OK" Samples.token_body)) Samples.st0
    = (Return (JStr "abc123"),
       mkProc
         (environ
            (loaded
               (Samples.requests_world
                  (Samples.requests_reply 200 "OK" Samples.token_body))
               Samples.st0))
         [] [dumps_indent2 Samples.token_json]
         [requests_request "id" "secret" "refresh"]).
Proof.
  destruct fetch_access_token_returns_the_token as [Hurllib Hrequests]. split.
  - apply (Hurllib _ Samples.st0 "id" "secret" "refresh"
             (Urllib.mkHTTPResponse 200 "OK" (Return Samples.token_body))
             Samples.token_body);
      first [reflexivity | by vm_compute | simpl; lia].
  - apply (Hrequests _ Samples.st0 "id" "secret" "refresh"
             (Requests.mkResponse 200 "OK" Requests.TOKEN_ENDPOINT
                Samples.token_body (Samples.decoder Samples.token_body)));
      first [reflexivity | by vm_compute | simpl; lia].
Defined.




(** C3. When the exchange with the token endpoint ends in a
    [RequestException] or in a status from 400 to 599, the script under
    [src/] fails with a request-failed error that wraps the underlying
    cause. The root script fails too, for a failed connection and for any
    status outside 2xx, but with the underlying exception itself, not
    wrapped: so it does at a 500 answer. And the script under [src/] takes
    an answer with status 300, which is outside 2xx, as a success and
    returns the token. *)
Theorem fetch_access_token_request_failed :
  (∀ w st client_id client_secret refresh_token,
     requests w st client_id client_secret refresh_token →
     let req := requests_request client_id client_secret refresh_token in
     let r := (Requests.fetch_access_token w st).1 in
     (∀ cause,
        Requests.peer w req = Raise cause →
        isinstance cause RequestException = true →
        ∃ e, r = Raise e ∧ RequestFailed cause e)
     ∧ (∀ response,
          Requests.peer w req = Return response →
          400 ≤ Requests.status_code response < 600 →
          ∃ cause e,
            exn_cls cause = RequestsHTTPError
            ∧ r = Raise e ∧ RequestFailed cause e))
  ∧ (∀ w st client_id client_secret refresh_token,
       urllib w st client_id client_secret refresh_token →
       let req := urllib_request client_id client_secret refresh_token in
       let r := (Urllib.fetch_access_token w st).1 in
       (∀ cause, Urllib.peer w req = Raise cause → r = Raise cause)
       ∧ (∀ response,
            Urllib.peer w req = Return response →
            ¬ (200 ≤ Urllib.status response < 300) →
            r = Raise (Exn UrllibHTTPError
                         ("HTTP Error " +:+ pretty (Urllib.status response)
                          +:+ ": " +:+ Urllib.reason response) None)))
  ∧ ((Urllib.fetch_access_token
        (Samples.urllib_world
           (Samples.urllib_status 500 "Internal Server Error"
              Samples.token_body))
        Samples.st0).1
     = Raise (Exn UrllibHTTPError "HTTP Error 500: Internal Server Error" None)
     ∧ ¬ ∃ cause,
           RequestFailed cause
             (Exn UrllibHTTPError "HTTP Error 500: Internal Server Error" None))
  ∧ ((Urllib.fetch_access_token
        (Samples.urllib_world (Raise Samples.connection_refused))
        Samples.st0).1
     = Raise Samples.connection_refused
     ∧ ¬ ∃ cause, RequestFailed cause Samples.connection_refused)
  ∧ ∃ response,
      Requests.peer
        (Samples.requests_world
           (Samples.requests_reply 300 "Multiple Choices" Samples.token_body))
        (requests_request "id" "secret" "refresh")
      = Return response
      ∧ ¬ (200 ≤ Requests.status_code response < 300)
      ∧ (Requests.fetch_access_token
           (Samples.requests_world
              (Samples.requests_reply 300 "Multiple Choices"
                 Samples.token_body))
           Samples.st0).1
        = Return (JStr "abc123").
Proof.
  split; [|split; [|split; [|split]]].
  - intros w st client_id client_secret refresh_token Hcred req r. split.
    + intros cause Hpeer Hclass. by eapply requests_fetch_no_reply.
    + intros response Hpeer Hstatus. by eapply requests_fetch_http_error.
  - intros w st client_id client_secret refresh_token Hcred req r. split.
    + intros cause Hpeer. subst r. by erewrite urllib_fetch_no_reply.
    + intros response Hpeer Hstatus. subst r.
      by erewrite urllib_fetch_http_error.
  - split; [by vm_compute|]. intros [cause Hwrapped]. discriminate Hwrapped.
  - split; [by vm_compute|]. intros [cause Hwrapped]. discriminate Hwrapped.
  - eexists. split; [reflexivity|]. split; [simpl; lia|]. by vm_compute.
Qed.

Lemma fetch_access_token_request_failed_witness :
  (∃ e,
     (Requests.fetch_access_token
        (Samples.requests_world (Raise Samples.connection_error))
        Samples.st0).1
     = Raise e
     ∧ RequestFailed Samples.connection_error e)
  ∧ (∃ cause e,
       exn_cls cause = RequestsHTTPError
       ∧ (Requests.fetch_access_token
            (Samples.requests_world
               (Samples.requests_reply 500 "Internal Server Error"
                  Samples.token_body))
            Samples.st0).1
         = Raise e
       ∧ RequestFailed cause e)
  ∧ (Urllib.fetch_access_token
       (Samples.urllib_world
          (Samples.urllib_status 503 "Service Unavailable"
             Samples.token_body))
       Samples.st0).1
    = Raise (Exn UrllibHTTPError
               ("HTTP Error " +:+ pretty 503 +:+ ": " +:+ "Service Unavailable")
               None)
  ∧ (Urllib.fetch_access_token
       (Samples.urllib_world (Raise Samples.connection_refused))
       Samples.st0).1
    = Raise Samples.connection_refused.
Proof.
  destruct fetch_access_token_request_failed as (Hrequests & Hurllib & _).
  split; [|split; [|split]].
  - refine (proj1 (Hrequests
               (Samples.requests_world (Raise Samples.connection_error))
               Samples.st0 "id" "secret" "refresh" _) _ _ _);
      first [reflexivity | by vm_compute].
  - refine (proj2 (Hrequests
               (Samples.requests_world
                  (Samples.requests_reply 500 "Internal Server Error"
                     Samples.token_body))
               Samples.st0 "id" "secret" "refresh" _) _ _ _);
      first [reflexivity | by vm_compute | simpl; lia].
  - refine (proj2 (Hurllib
               (Samples.urllib_world
                  (Samples.urllib_status 503 "Service Unavailable"
                     Samples.token_body))
               Samples.st0 "id" "secret" "refresh" _)
              (Urllib.mkHTTPResponse 503 "Service Unavailable"
                 (Return Samples.token_body)) _ _);
      first [reflexivity | by vm_compute | simpl; lia].
  - refine (proj1 (Hurllib
               (Samples.urllib_world (Raise Samples.connection_refused))
               Samples.st0 "id" "secret" "refresh" _) _ _);
      first [reflexivity | by vm_compute].
Defined.

End token_client.

(** ** The effects of the token client and of the entry point *)

Section token_client_effects.

Import Effects.

Implicit Types (R : relation Proc).

Ltac effects :=
  repeat first
    [ done
    | lazymatch goal with
      | |- Reflexive _ => apply _
      | |- Transitive _ => apply _
      | |- PreOrder _ => apply _
      end
    | apply preserves_ret | apply preserves_raise | apply preserves_lift
    | apply preserves_os_environ | apply preserves_getitem
    | apply preserves_try_except
    | apply quiet_send
    | (apply preserves_bind; [..|intros ?]) ].

Lemma urllib_get_env_value_preserves R `{!PreOrder R} name env_file_values :
  preserves R (Urllib.get_env_value name env_file_values).
Proof.
  unfold Urllib.get_env_value, Urllib.environ_or_missing.
  destruct (env_file_values !! name) as [value|]; [destruct (Py.truthy value)|];
    effects.
Qed.

Lemma requests_get_env_value_preserves R `{!PreOrder R} name :
  preserves R (Requests.get_env_value name).
Proof. unfold Requests.get_env_value. effects. Qed.

Lemma json_loads_preserves R `{!PreOrder R} w text :
  preserves R (Urllib.json_loads w text).
Proof.
  unfold Urllib.json_loads. destruct (Urllib.json_decoder w text); effects.
Qed.

Lemma response_json_preserves R `{!PreOrder R} response :
  preserves R (Requests.json response).
Proof.
  unfold Requests.json. destruct (Requests.json_body response); effects.
Qed.

Lemma raise_for_status_preserves R `{!PreOrder R} response :
  preserves R (Requests.raise_for_status response).
Proof.
  unfold Requests.raise_for_status. repeat case_match; effects.
Qed.

Lemma load_dotenv_quiet w : preserves quiet (Requests.load_dotenv w).
Proof. by intros st. Qed.

Lemma load_dotenv_sends P w : preserves (sends P) (Requests.load_dotenv w).
Proof. intros st. exists []. simpl. by rewrite app_nil_r. Qed.

(** Up to its last two statements, [fetch_access_token] does to the
    process only what sending the token request does. *)
Lemma urllib_fetch_preserves R `{!PreOrder R} w :
  (∀ payload,
     preserves R (send (Urllib.peer w) (Urllib.token_request payload))) →
  (∀ s, preserves R (print_stderr s)) →
  preserves R (Urllib.fetch_access_token w).
Proof.
  intros Hsend Hprint. unfold Urllib.fetch_access_token, Urllib.urlopen.
  repeat first
    [ apply urllib_get_env_value_preserves | apply json_loads_preserves
    | apply Hsend | apply Hprint | progress effects | case_match ].
Qed.

Lemma requests_fetch_preserves R `{!PreOrder R} w :
  preserves R (Requests.load_dotenv w) →
  (∀ payload,
     preserves R
       (send (Requests.peer w)
          (Requests.token_request payload
             [("Content-Type", Requests.FORM_CONTENT_TYPE)]))) →
  (∀ s, preserves R (print_stderr s)) →
  preserves R (Requests.fetch_access_token w).
Proof.
  intros Hload Hsend Hprint. unfold Requests.fetch_access_token.
  repeat first
    [ apply requests_get_env_value_preserves | apply response_json_preserves
    | apply raise_for_status_preserves
    | apply Hload | apply Hsend | apply Hprint | progress effects ].
Qed.

Lemma urllib_fetch_reports w : reports (Urllib.fetch_access_token w).
Proof.
  unfold Urllib.fetch_access_token, Urllib.urlopen.
  repeat first [apply reports_print_stderr | (apply reports_bind; [|intros ?])];
    repeat first
      [ apply urllib_get_env_value_preserves | apply json_loads_preserves
      | progress effects | case_match ].
Qed.

Lemma requests_fetch_reports w : reports (Requests.fetch_access_token w).
Proof.
  unfold Requests.fetch_access_token.
  repeat first [apply reports_print_stderr | (apply reports_bind; [|intros ?])];
    repeat first
      [ apply requests_get_env_value_preserves | apply response_json_preserves
      | apply raise_for_status_preserves | apply load_dotenv_quiet
      | progress effects ].
Qed.

Lemma isinstance_Exception e : isinstance e Exception = true.
Proof. destruct e as [[] msg cause]; reflexivity. Qed.

Lemma main_entry_point repr_of (fetch : M json) st final :
  reports fetch →
  final
  = match fetch st with
    | (Raise error, st') =>
        if isinstance error MissingEnvironmentVariableError
        then (1, (print_stderr (exn_str error) st').2)
        else if isinstance error Exception
        then (1, (print_stderr
                    ("Failed to retrieve access token: " +:+ exn_str error)
                    st').2)
        else (1, st')
    | (Return token, st') => (0, (print (py_str repr_of token) st').2)
    end →
  entry_point repr_of (fetch st).1 st final.
Proof.
  intros Hfetch ->. destruct (Hfetch st) as [Hout Herr].
  destruct (fetch st) as [[token|e] st']; simpl in *.
  - rewrite Hout. split; [done|]. split; [done|]. done.
  - rewrite isinstance_Exception.
    destruct (isinstance e MissingEnvironmentVariableError); simpl;
      by rewrite Hout, Herr.
Qed.

(** C7. The entry point of the token script exits with status 0 when
    [fetch_access_token] returns, and then the token is all it writes to
    standard output, the diagnostic going to standard error; when
    [fetch_access_token] raises, for a missing variable or for anything
    else, it exits with status 1, writes one message to standard error and
    nothing to standard output. *)
Theorem main_exit_status_and_streams :
  (∀ w st,
     entry_point (Urllib.repr_of w) (Urllib.fetch_access_token w st).1 st
       (Urllib.main w st))
  ∧ (∀ w st,
       entry_point (Requests.repr_of w) (Requests.fetch_access_token w st).1 st
         (Requests.main w st)).
Proof.
  split; intros w st.
  - by apply main_entry_point; [apply urllib_fetch_reports|].
  - by apply main_entry_point; [apply requests_fetch_reports|].
Qed.

Example main_prints_the_token :
  Urllib.main (Samples.urllib_world (Samples.urllib_ok Samples.token_body))
    Samples.st0
  = (0, mkProc ∅ ["abc123"] [dumps_indent2 Samples.token_json]
          [Credentials.urllib_request "id" "secret" "refresh"]).
Proof. by vm_compute. Qed.

Example main_missing_variable :
  Urllib.main Samples.urllib_bare Samples.st0
  = (1, mkProc ∅ []
          ["Required variable 'SP_API_CLIENT_ID' is not defined in .env or the environment."]
          []).
Proof. by vm_compute. Qed.

Example main_not_json :
  Requests.main
    (Samples.requests_world (Samples.requests_reply 200 "OK" "not json"))
    Samples.st0
  = (1, mkProc
          (environ
             (Credentials.loaded
                (Samples.requests_world
                   (Samples.requests_reply 200 "OK" "not json"))
                Samples.st0))
          []
          ["Failed to retrieve access token: Amazon SP-API token endpoint returned non-JSON response: not json"]
          [Credentials.requests_request "id" "secret" "refresh"]).
Proof. by vm_compute. Qed.

Example main_server_error :
  (Requests.main
     (Samples.requests_world
        (Samples.requests_reply 500 "Internal Server Error" "oops"))
     Samples.st0).1 = 1
  ∧ stderr (Requests.main
              (Samples.requests_world
                 (Samples.requests_reply 500 "Internal Server Error" "oops"))
              Samples.st0).2
    = ["Failed to retrieve access token: Failed to fetch access token: 500 Server Error: Internal Server Error for url: https://api.amazon.com/auth/o2/token"].
Proof. split; by vm_compute. Qed.

(** C9. The [requests] script posts the token request with the form
    content type and a timeout of 30 seconds. The [urllib] script posts it
    with the same content type and no timeout at all: whatever the world,
    and in particular in a run where the peer answers with a token. *)
Theorem token_request_content_type_and_timeout :
  (∀ w st,
     ∃ new,
       sent (Requests.fetch_access_token w st).2 = sent st ++ new
       ∧ Forall (token_post (Some 30)) new)
  ∧ (∀ w st,
       ∃ new,
         sent (Urllib.fetch_access_token w st).2 = sent st ++ new
         ∧ Forall (token_post None) new)
  ∧ ∃ req,
      sent (Urllib.fetch_access_token
              (Samples.urllib_world (Samples.urllib_ok Samples.token_body))
              Samples.st0).2
      = [req]
      ∧ Http.timeout req = None.
Proof.
  split; [|split].
  - intros w st.
    apply (requests_fetch_preserves (sends (token_post (Some 30)))).
    + apply load_dotenv_sends.
    + intros payload. by apply sends_send.
    + apply sends_print_stderr.
  - intros w st.
    apply (urllib_fetch_preserves (sends (token_post None))).
    + intros payload. by apply sends_send.
    + apply sends_print_stderr.
  - eexists. split; [by vm_compute|]. reflexivity.
Qed.

End token_client_effects.

(** ** The sandbox caller *)

Section sandbox_caller.

Import Effects.

Lemma sandbox_endpoints_NA :
  ListingEditor.sandbox_endpoints !! "NA"
  = Some "sandbox.sellingpartnerapi-na.amazon.com".
Proof. by vm_compute. Qed.

Lemma fetch_example_unfold w token st :
  ListingEditor.fetch_example w ListingEditor.sandbox_endpoints token st
  = (let* response := send (Requests.peer w) (sandbox_orders_request token) in
     print (pretty (Requests.status_code response)) ;;
     Requests.json response) st.
Proof.
  unfold ListingEditor.fetch_example, ListingEditor.dict_getitem.
  rewrite sandbox_endpoints_NA. reflexivity.
Qed.

(** C8, as stated, fails: the status code of the answer goes to standard
    output, the channel of the primary output, and standard error stays
    empty. *)
Lemma fetch_example_status_on_stdout :
  stdout (ListingEditor.fetch_example
            (Samples.requests_world
               (Samples.requests_reply 200 "OK" Samples.token_body))
            ListingEditor.sandbox_endpoints "abc123" Samples.st0).2
  = ["200"]
  ∧ stderr (ListingEditor.fetch_example
              (Samples.requests_world
                 (Samples.requests_reply 200 "OK" Samples.token_body))
              ListingEditor.sandbox_endpoints "abc123" Samples.st0).2
    = [].
Proof. split; by vm_compute. Qed.

(** C8, amended. For any access token and the region NA, [fetch_example]
    issues exactly one request: a GET of
    [https://sandbox.sellingpartnerapi-na.amazon.com/orders/v0/orders] with
    the parameters [MarketplaceIds=ATVPDKIKX0DER] and
    [CreatedAfter=TEST_CASE_200] and the headers [x-amz-access-token] (the
    token), [Content-Type: application/json] and a fixed [User-Agent]; it
    prints the status code of the answer to standard output and returns
    the decoded JSON body. *)
Theorem fetch_example_request_and_status w token st :
  let run :=
    ListingEditor.fetch_example w ListingEditor.sandbox_endpoints token st in
  sent run.2 = sent st ++ [sandbox_orders_request token]
  ∧ ∀ response,
      Requests.peer w (sandbox_orders_request token) = Return response →
      stdout run.2 = stdout st ++ [pretty (Requests.status_code response)]
      ∧ stderr run.2 = stderr st
      ∧ ∀ body,
          Requests.json_body response = Decoded body → run.1 = Return body.
Proof.
  intros run. subst run. rewrite fetch_example_unfold.
  unfold bind, send, print, Requests.json.
  destruct (Requests.peer w (sandbox_orders_request token))
    as [response|e] eqn:Hpeer.
  - cbv beta iota. split.
    + by destruct (Requests.json_body response).
    + intros ? [= <-]. split; [|split].
      * by destruct (Requests.json_body response).
      * by destruct (Requests.json_body response).
      * by intros body ->.
  - split; [done|]. intros ? [=].
Qed.

Lemma fetch_example_request_and_status_witness :
  sent (ListingEditor.fetch_example
          (Samples.requests_world
             (Samples.requests_reply 200 "OK" Samples.token_body))
          ListingEditor.sandbox_endpoints "abc123" Samples.st0).2
  = [sandbox_orders_request "abc123"]
  ∧ stdout (ListingEditor.fetch_example
              (Samples.requests_world
                 (Samples.requests_reply 200 "OK" Samples.token_body))
              ListingEditor.sandbox_endpoints "abc123" Samples.st0).2
    = ["200"]
  ∧ (ListingEditor.fetch_example
       (Samples.requests_world
          (Samples.requests_reply 200 "OK" Samples.token_body))
       ListingEditor.sandbox_endpoints "abc123" Samples.st0).1
    = Return Samples.token_json.
Proof.
  destruct (fetch_example_request_and_status
              (Samples.requests_world
                 (Samples.requests_reply 200 "OK" Samples.token_body))
              "abc123" Samples.st0) as [Hsent Hanswer].
  destruct (Hanswer
              (Requests.mkResponse 200 "OK" Requests.TOKEN_ENDPOINT
                 Samples.token_body (Samples.decoder Samples.token_body))
              eq_refl) as (Hstdout & _ & Hbody).
  split; [exact Hsent|]. split; [exact Hstdout|].
  apply Hbody. reflexivity.
Defined.

End sandbox_caller.

(** * Further properties of the configuration file parser *)

Section load_env_file_more.

Implicit Types (values : gmap string string) (line text key value : string).

Lemma strip_idem s : Py.strip (Py.strip s) = Py.strip s.
Proof.
  unfold Py.strip.
  by rewrite lstrip_rstrip, lstrip_idem, rstrip_idem.
Qed.

Lemma first_non_whitespace_app c k v :
  Py.isspace c = false →
  FileSpec.first_non_whitespace (k +:+ String c v)
  = match FileSpec.first_non_whitespace k with
    | Some a => Some a
    | None => Some c
    end.
Proof.
  intros Hc. induction k as [|a k IH]; simpl.
  - change (FileSpec.first_non_whitespace (String c v) = Some c).
    simpl. by rewrite Hc.
  - by destruct (Py.isspace a).
Qed.

Lemma strip_first s :
  match FileSpec.first_non_whitespace s with
  | Some c => ∃ rest, Py.strip s = String c rest
  | None => Py.strip s = EmptyString
  end.
Proof.
  destruct (FileSpec.first_non_whitespace s) as [c|] eqn:Hfirst.
  - destruct (lstrip_first _ _ Hfirst) as [Hc [rest Hrest]].
    exists (Py.rstrip rest). unfold Py.strip. rewrite Hrest.
    by apply rstrip_cons_nonspace.
  - apply first_non_whitespace_None in Hfirst.
    unfold Py.strip. by rewrite lstrip_blank.
Qed.

(** What a line assigns is trimmed, and its key is free of [=] and does
    not begin with [#]. *)
Lemma assignment_trimmed line key value :
  FileSpec.assignment line = Some (key, value) →
  Py.strip key = key ∧ Py.strip value = value
  ∧ Py.contains "=" key = false ∧ Py.startswith key "#" = false.
Proof.
  unfold FileSpec.assignment, FileSpec.ignored.
  destruct (FileSpec.blank line) eqn:Hblank; [done|].
  destruct (FileSpec.comment line) eqn:Hcomment; [done|].
  destruct (Py.contains "=" line) eqn:Hin; [|done]. cbn [orb negb].
  destruct (split1_contains _ _ Hin) as [Hline Hkey].
  destruct (Py.split1 "=" line) as [k v]. simpl in Hline, Hkey.
  intros [= <- <-]. rewrite !strip_idem, contains_strip by done.
  repeat split; [done|].
  unfold FileSpec.comment in Hcomment. apply bool_decide_eq_false in Hcomment.
  rewrite Hline, first_non_whitespace_app in Hcomment by done.
  pose proof (strip_first k) as Hk.
  destruct (FileSpec.first_non_whitespace k) as [c|].
  - destruct Hk as [rest ->].
    change (Py.startswith (String c rest) "#")
      with (if ascii_dec "#" c then true else false).
    destruct (ascii_dec "#" c) as [<-|]; [by destruct Hcomment|done].
  - by rewrite Hk.
Qed.

Lemma foldl_assign_lookup lines values key value :
  foldl FileSpec.assign values lines !! key = Some value →
  values !! key = Some value
  ∨ ∃ line, line ∈ lines ∧ FileSpec.assignment line = Some (key, value).
Proof.
  revert values. induction lines as [|line lines IH]; intros m; simpl; [auto|].
  intros [Hm | (l & Hl & Hassign)]%IH.
  - unfold FileSpec.assign in Hm.
    destruct (FileSpec.assignment line) as [[k v]|] eqn:Hline; [|auto].
    destruct (decide (k = key)) as [->|].
    + rewrite lookup_insert_eq in Hm. injection Hm as ->.
      right. exists line. split; [apply list_elem_of_here|done].
    + rewrite lookup_insert_ne in Hm by done. auto.
  - right. exists l. split; [by apply list_elem_of_further|done].
Qed.

Lemma foldl_assign_is_Some lines values key :
  is_Some (values !! key) →
  is_Some (foldl FileSpec.assign values lines !! key).
Proof.
  revert values. induction lines as [|line lines IH]; intros m Hm; simpl; [done|].
  apply IH. unfold FileSpec.assign.
  destruct (FileSpec.assignment line) as [[k v]|]; [|done].
  destruct (decide (k = key)) as [->|].
  - rewrite lookup_insert_eq. eauto.
  - by rewrite lookup_insert_ne.
Qed.

(** A line that, read alone, gives the mapping one entry assigns that
    entry. *)
Lemma env_line_alone line key value :
  Urllib.env_line ∅ line = {[ key := value ]}
  ↔ FileSpec.assignment line = Some (key, value).
Proof.
  rewrite env_line_assign. unfold FileSpec.assign.
  destruct (FileSpec.assignment line) as [[k v]|]; split.
  - rewrite insert_empty. intros Heq.
    assert (({[k := v]} : gmap string string) !! key = Some value) as Hlook.
    { rewrite Heq. apply lookup_singleton_eq. }
    apply lookup_singleton_Some in Hlook as [-> ->]. done.
  - intros [= -> ->]. by rewrite insert_empty.
  - intros Heq.
    assert ((∅ : gmap string string) !! key = Some value) as Hlook.
    { rewrite Heq. apply lookup_singleton_eq. }
    by rewrite lookup_empty in Hlook.
  - done.
Qed.

(** X1. Whatever the file, every key and every value of the mapping that
    [load_env_file] returns is trimmed, no key holds an [=] and no key
    begins with [#]. *)
Theorem load_env_file_entries_trimmed file key value :
  Urllib.load_env_file file !! key = Some value →
  Py.strip key = key ∧ Py.strip value = value
  ∧ Py.contains "=" key = false ∧ Py.startswith key "#" = false.
Proof.
  destruct file as [text|]; [|unfold Urllib.load_env_file; by rewrite lookup_empty].
  rewrite load_env_file_assign.
  intros [Hempty | (line & _ & Hline)]%foldl_assign_lookup.
  - by rewrite lookup_empty in Hempty.
  - by eapply assignment_trimmed.
Qed.

Lemma load_env_file_entries_trimmed_witness :
  Py.strip "B" = "B" ∧ Py.strip "x=y" = "x=y"
  ∧ Py.contains "=" "B" = false ∧ Py.startswith "B" "#" = false.
Proof.
  apply (load_env_file_entries_trimmed (Some Samples.repeated_env)).
  reflexivity.
Defined.

(** X2. A key is in the mapping exactly when some line of the file, read
    alone, assigns it, and the value the mapping gives to a key is the one
    such a line assigns; so a file whose lines assign nothing gives the
    empty mapping. *)
Theorem load_env_file_keys_come_from_lines text :
  (∀ key,
     is_Some (Urllib.load_env_file (Some text) !! key)
     ↔ ∃ line value,
         line ∈ Py.splitlines text
         ∧ Urllib.env_line ∅ line = {[ key := value ]})
  ∧ (∀ key value,
       Urllib.load_env_file (Some text) !! key = Some value →
       ∃ line,
         line ∈ Py.splitlines text
         ∧ Urllib.env_line ∅ line = {[ key := value ]})
  ∧ ((∀ line, line ∈ Py.splitlines text → Urllib.env_line ∅ line = ∅) →
     Urllib.load_env_file (Some text) = ∅).
Proof.
  assert (∀ key value,
            Urllib.load_env_file (Some text) !! key = Some value →
            ∃ line, line ∈ Py.splitlines text
                    ∧ Urllib.env_line ∅ line = {[ key := value ]}) as Hvalue.
  { intros key value. rewrite load_env_file_assign.
    intros [Hempty | (line & Hin & Hline)]%foldl_assign_lookup.
    - by rewrite lookup_empty in Hempty.
    - exists line. by rewrite env_line_alone. }
  split; [|split; [done|]].
  - intros key. split.
    + intros [value Hlookup]. destruct (Hvalue _ _ Hlookup) as (line & ? & ?).
      by exists line, value.
    + intros (line & value & Hin & Hline%env_line_alone).
      rewrite load_env_file_assign.
      apply list_elem_of_split in Hin as (before & after & ->).
      rewrite foldl_app. simpl. apply foldl_assign_is_Some.
      rewrite (assign_Some _ _ _ _ Hline), lookup_insert_eq. eauto.
  - intros Hnone. apply map_empty. intros key.
    destruct (Urllib.load_env_file (Some text) !! key) as [value|] eqn:Hlookup;
      [|done].
    destruct (Hvalue _ _ Hlookup) as (line & Hin & Hline).
    rewrite (Hnone _ Hin) in Hline.
    assert ((∅ : gmap string string) !! key = Some value) as Hbad.
    { rewrite Hline. apply lookup_singleton_eq. }
    by rewrite lookup_empty in Hbad.
Qed.

Lemma load_env_file_keys_come_from_lines_witness :
  is_Some (Urllib.load_env_file (Some Samples.repeated_env) !! "B")
  ∧ Urllib.load_env_file (Some MoreSamples.idle_env) = ∅.
Proof.
  split.
  - apply (proj1 (load_env_file_keys_come_from_lines Samples.repeated_env)).
    exists "B = x=y", "x=y". split; [|reflexivity].
    apply list_elem_of_further, list_elem_of_here.
  - apply (proj2 (proj2 (load_env_file_keys_come_from_lines _))).
    intros line Hin.
    change (Py.splitlines MoreSamples.idle_env)
      with ["# only a comment"; "   "; "no equals sign"] in Hin.
    repeat (apply elem_of_cons in Hin as [-> | Hin]; [by vm_compute|]).
    by apply not_elem_of_nil in Hin.
Defined.

Lemma any_app p s t : Text.any p (s +:+ t) = Text.any p s || Text.any p t.
Proof.
  induction s as [|a s IH]; [done|].
  change (Text.any p (String a (s +:+ t))
          = Text.any p (String a s) || Text.any p t).
  simpl. by rewrite IH, orb_assoc.
Qed.

Lemma rev_app_append s1 s2 t :
  String.rev_app s1 s2 +:+ t = String.rev_app s1 (s2 +:+ t).
Proof. revert s2. induction s1 as [|a s1 IH]; intros s2; simpl; [done|]. apply IH. Qed.

Lemma any_rev_app p s1 s2 :
  Text.any p (String.rev_app s1 s2) = Text.any p s1 || Text.any p s2.
Proof.
  revert s2. induction s1 as [|a s1 IH]; intros s2; simpl; [done|].
  rewrite IH. simpl. by rewrite !orb_assoc, (orb_comm (Text.any p s1)).
Qed.

Lemma any_lstrip p s : Text.any p s = false → Text.any p (Py.lstrip s) = false.
Proof.
  induction s as [|a s IH]; simpl; [done|].
  intros [Ha Hs]%orb_false_iff. destruct (Py.isspace a); [auto|].
  simpl. by rewrite Ha, Hs.
Qed.

Lemma any_rstrip p s : Text.any p s = false → Text.any p (Py.rstrip s) = false.
Proof.
  induction s as [|a s IH]; [done|]. simpl.
  intros [Ha Hs]%orb_false_iff. specialize (IH Hs).
  destruct (Py.rstrip s) as [|b r].
  - destruct (Py.isspace a); simpl; [done|]. by rewrite Ha.
  - change (p a || Text.any p (String b r) = false). by rewrite Ha, IH.
Qed.

Lemma any_strip p s : Text.any p s = false → Text.any p (Py.strip s) = false.
Proof. intros Hs. by apply any_rstrip, any_lstrip. Qed.

Lemma any_split1 p c s :
  Text.any p s = false →
  Text.any p (Py.split1 c s).1 = false ∧ Text.any p (Py.split1 c s).2 = false.
Proof.
  induction s as [|a s IH]; simpl; [done|].
  intros [Ha Hs]%orb_false_iff. destruct (ascii_dec a c); [done|].
  destruct (IH Hs) as [Hl Hr]. destruct (Py.split1 c s) as [l r]. simpl in *.
  by rewrite Ha, Hl.
Qed.

(** No line that [splitlines] gives holds a line boundary. *)
Lemma splitlines_go_no_break cur after_cr s :
  Text.any Py.islinebreak cur = false →
  Forall (λ line, Text.any Py.islinebreak line = false)
    (Py.splitlines_go cur after_cr s).
Proof.
  revert cur after_cr. induction s as [|a s IH]; intros cur after_cr Hcur; simpl.
  - destruct cur as [|b cur]; [constructor|].
    apply Forall_singleton. unfold String.rev.
    by rewrite any_rev_app, Hcur.
  - destruct (after_cr && bool_decide (a = Py.LF)); [by apply IH|].
    destruct (Py.islinebreak a) eqn:Ha.
    + constructor; [|by apply IH].
      unfold String.rev. by rewrite any_rev_app, Hcur.
    + apply IH. simpl. by rewrite Ha, Hcur.
Qed.

Lemma assignment_no_break line key value :
  Text.any Py.islinebreak line = false →
  FileSpec.assignment line = Some (key, value) →
  Text.any Py.islinebreak key = false ∧ Text.any Py.islinebreak value = false.
Proof.
  intros Hline. unfold FileSpec.assignment.
  destruct (FileSpec.ignored line); [done|].
  destruct (any_split1 Py.islinebreak "=" line Hline) as [Hk Hv].
  destruct (Py.split1 "=" line) as [k v]. simpl in *.
  intros [= <- <-]. split; by apply any_strip.
Qed.

(** X3. No key and no value of the mapping that [load_env_file] returns
    holds a line boundary (a line feed, a carriage return or another
    boundary of [splitlines]). *)
Theorem load_env_file_entries_on_one_line file key value :
  Urllib.load_env_file file !! key = Some value →
  Text.any Py.islinebreak key = false ∧ Text.any Py.islinebreak value = false.
Proof.
  destruct file as [text|];
    [|unfold Urllib.load_env_file; by rewrite lookup_empty].
  rewrite load_env_file_assign.
  intros [Hempty | (line & Hin & Hline)]%foldl_assign_lookup.
  - by rewrite lookup_empty in Hempty.
  - eapply assignment_no_break; [|done].
    pose proof (splitlines_go_no_break EmptyString false text eq_refl) as Hall.
    rewrite Forall_forall in Hall. by apply Hall.
Qed.

Lemma load_env_file_entries_on_one_line_witness :
  Text.any Py.islinebreak "A" = false ∧ Text.any Py.islinebreak "3" = false.
Proof.
  apply (load_env_file_entries_on_one_line (Some Samples.repeated_env)).
  reflexivity.
Defined.

(** Reading back a line that ends with a line feed. *)
Lemma splitlines_go_line cur line rest :
  Text.any Py.islinebreak line = false →
  Py.splitlines_go cur false (line +:+ String Py.LF rest)
  = (String.rev cur +:+ line) :: Py.splitlines_go EmptyString false rest.
Proof.
  revert cur. induction line as [|a line IH]; intros cur.
  - intros _. unfold String.rev. rewrite rev_app_append.
    change (Py.splitlines_go cur false (String Py.LF rest)
            = String.rev_app cur EmptyString
              :: Py.splitlines_go EmptyString false rest).
    reflexivity.
  - simpl. intros [Ha Hline]%orb_false_iff.
    change (Py.splitlines_go cur false
              (String a (line +:+ String Py.LF rest))
            = (String.rev cur +:+ String a line)
              :: Py.splitlines_go EmptyString false rest).
    simpl. rewrite Ha, IH by done. f_equal.
    unfold String.rev. simpl. by rewrite !rev_app_append.
Qed.

Lemma splitlines_render pairs :
  Forall EnvWriter.writable pairs →
  Py.splitlines (EnvWriter.render pairs) = EnvWriter.line_of <$> pairs.
Proof.
  unfold Py.splitlines. induction 1 as [|kv pairs Hkv _ IH]; [done|].
  simpl. rewrite splitlines_go_line, IH; [done|].
  destruct Hkv as [(_ & Hk & _) [_ Hv]]. unfold EnvWriter.line_of.
  rewrite any_app. simpl. by rewrite Hk, Hv.
Qed.

Lemma assignment_line_of kv :
  EnvWriter.writable kv →
  FileSpec.assignment (EnvWriter.line_of kv) = Some kv.
Proof.
  destruct kv as [key value].
  intros [(Hstrip & _ & Hequals & Hhash) [Hvalue _]]. cbn [fst snd] in *.
  change (EnvWriter.line_of (key, value)) with (key +:+ "=" +:+ value).
  rewrite (assignment_key_value key value), Hstrip, Hvalue; [done..|].
  unfold FileSpec.comment. apply bool_decide_eq_false.
  change ("=" +:+ value) with (String "=" value).
  rewrite first_non_whitespace_app by done.
  pose proof (strip_first key) as Hfirst.
  destruct (FileSpec.first_non_whitespace key) as [c|]; [|done].
  destruct Hfirst as [rest Hrest]. rewrite Hstrip in Hrest. subst key.
  change (Py.startswith (String c rest) "#")
    with (if ascii_dec "#" c then true else false) in Hhash.
  destruct (ascii_dec "#" c); [done|congruence].
Qed.

Lemma foldl_assign_render pairs values :
  Forall EnvWriter.writable pairs →
  foldl FileSpec.assign values (EnvWriter.line_of <$> pairs)
  = list_to_map (reverse pairs) ∪ values.
Proof.
  intros Hpairs. revert values.
  induction Hpairs as [|[key value] pairs Hkv _ IH]; intros m; simpl.
  - by rewrite (left_id_L ∅ (∪)).
  - rewrite (assign_Some _ _ _ _ (assignment_line_of _ Hkv)), IH.
    rewrite reverse_cons, list_to_map_app. simpl.
    rewrite <- (assoc_L (∪)). f_equal.
    by rewrite <- insert_union_l, (left_id_L ∅ (∪)).
Qed.

(** X4. A file written with one [KEY=VALUE] line per pair, where keys and
    values are trimmed and on one line and no key holds [=] or begins with
    [#], reads back as the mapping of those pairs, a later pair winning
    over an earlier one with the same key. *)
Theorem load_env_file_reads_back pairs :
  Forall EnvWriter.writable pairs →
  Urllib.load_env_file (Some (EnvWriter.render pairs))
  = list_to_map (reverse pairs).
Proof.
  intros Hpairs.
  rewrite load_env_file_assign, splitlines_render, foldl_assign_render by done.
  by rewrite (right_id_L ∅ (∪)).
Qed.

Lemma load_env_file_reads_back_witness :
  Urllib.load_env_file (Some (EnvWriter.render MoreSamples.pairs))
  = list_to_map (reverse MoreSamples.pairs).
Proof.
  apply load_env_file_reads_back.
  repeat (constructor; [by vm_compute|]). constructor.
Defined.

End load_env_file_more.

(** * Further properties of the configuration resolvers *)

Section get_env_value_more.

Implicit Types (name : string) (env_file_values : gmap string string)
  (st : Proc).

(** X5. [get_env_value] of the root script never changes the process; it
    fails exactly when the file gives the variable no non-empty value and
    the environment does not set it, and then the error is a
    [MissingEnvironmentVariableError] caused by the [KeyError] of
    [os.environ], whose text is the [repr] of the name: no other exception
    leaves it. *)
Theorem get_env_value_fails_only_when_missing name env_file_values st :
  (Urllib.get_env_value name env_file_values st).2 = st
  ∧ ((∃ e, (Urllib.get_env_value name env_file_values st).1 = Raise e)
     ↔ (env_file_values !! name = None
        ∨ env_file_values !! name = Some EmptyString)
       ∧ environ st !! name = None)
  ∧ (∀ e,
       (Urllib.get_env_value name env_file_values st).1 = Raise e →
       exn_cls e = MissingEnvironmentVariableError
       ∧ exn_cause e = Some (Exn KeyError (Py.repr name) None)).
Proof.
  unfold Urllib.get_env_value, Urllib.environ_or_missing, try_except, os_environ.
  destruct (env_file_values !! name) as [[|c value]|] eqn:Hfile;
    cbn [Py.truthy];
    destruct (environ st !! name) as [found|] eqn:Henv; cbn;
    (split; [done|split; [|by intros e [= <-]]]);
    split; try (by intros [e [=]]); try (by intros [[[=]|[=]] [=]]);
    try (intros _; by eauto); try (by intros [_ [=]]).
Qed.

Lemma get_env_value_fails_only_when_missing_witness :
  exn_cls
    (Exn MissingEnvironmentVariableError
       (Urllib.missing_message "SP_API_TOKEN")
       (Some (Exn KeyError "'SP_API_TOKEN'" None)))
  = MissingEnvironmentVariableError
  ∧ exn_cause
      (Exn MissingEnvironmentVariableError
         (Urllib.missing_message "SP_API_TOKEN")
         (Some (Exn KeyError "'SP_API_TOKEN'" None)))
    = Some (Exn KeyError (Py.repr "SP_API_TOKEN") None).
Proof.
  apply (proj2 (proj2 (get_env_value_fails_only_when_missing "SP_API_TOKEN"
                         (Urllib.load_env_file None) Samples.st_env))).
  reflexivity.
Defined.

(** X6. In the script under [src/], whose resolver runs after
    [load_dotenv()], a variable that the process environment sets keeps its
    value whatever the file says, and a variable that only the file defines
    gets the value of the file, even an empty one. *)
Theorem requests_environment_before_file w st name :
  (∀ value,
     environ st !! name = Some value →
     ((Requests.load_dotenv w ;; Requests.get_env_value name) st).1
     = Return value)
  ∧ (∀ value,
       environ st !! name = None →
       Requests.dotenv_values w !! name = Some value →
       ((Requests.load_dotenv w ;; Requests.get_env_value name) st).1
       = Return value).
Proof.
  unfold bind, Requests.load_dotenv, Requests.get_env_value, try_except,
    os_environ. cbn [environ]. split.
  - intros value Henv.
    by rewrite (lookup_union_Some_l _ _ _ _ Henv).
  - intros value Henv Hfile.
    by rewrite lookup_union_r, Hfile.
Qed.

Lemma requests_environment_before_file_witness :
  ((Requests.load_dotenv MoreSamples.requests_partial ;;
    Requests.get_env_value "SP_API_SECRET") MoreSamples.st_empty_token).1
  = Return "from-env"
  ∧ ((Requests.load_dotenv MoreSamples.requests_partial ;;
      Requests.get_env_value "SP_API_CLIENT_ID") MoreSamples.st_empty_token).1
    = Return EmptyString.
Proof.
  split.
  - apply (proj1 (requests_environment_before_file _ _ _)). reflexivity.
  - apply (proj2 (requests_environment_before_file _ _ _)); reflexivity.
Defined.

End get_env_value_more.

(** * Further properties of the token client *)

(** The steps that touch neither the wire nor the environment. *)
Ltac frame :=
  repeat first
    [ done
    | lazymatch goal with
      | |- Reflexive _ => apply _
      | |- Transitive _ => apply _
      | |- PreOrder _ => apply _
      end
    | apply preserves_ret | apply preserves_raise | apply preserves_lift
    | apply preserves_os_environ | apply preserves_getitem
    | apply preserves_try_except
    | apply urllib_get_env_value_preserves
    | apply requests_get_env_value_preserves
    | apply json_loads_preserves | apply response_json_preserves
    | apply raise_for_status_preserves
    | (apply preserves_bind; [..|intros ?])
    | case_match ].

Section token_client_more.

Import Credentials Effects Frame.

Lemma urllib_get_env_value_state name env_file_values st :
  (Urllib.get_env_value name env_file_values st).2 = st.
Proof.
  symmetry. apply (urllib_get_env_value_preserves eq name env_file_values st).
Qed.

(** X7. Both token scripts resolve the three credentials before anything
    else: when one of them is missing, [fetch_access_token] fails with the
    error of the first missing one, in the order client id, secret, token,
    and has sent no request and printed nothing. *)
Theorem fetch_access_token_stops_at_missing_credential :
  (∀ w st e,
     let get name :=
       Urllib.get_env_value name (Urllib.load_env_file (Urllib.env_file w)) st
     in
     get "SP_API_CLIENT_ID" = (Raise e, st)
     ∨ (∃ a, get "SP_API_CLIENT_ID" = (Return a, st))
       ∧ get "SP_API_SECRET" = (Raise e, st)
     ∨ (∃ a b, get "SP_API_CLIENT_ID" = (Return a, st)
               ∧ get "SP_API_SECRET" = (Return b, st))
       ∧ get "SP_API_TOKEN" = (Raise e, st) →
     Urllib.fetch_access_token w st = (Raise e, st))
  ∧ (∀ w st e,
       let get name := Requests.get_env_value name (loaded w st) in
       get "SP_API_CLIENT_ID" = (Raise e, loaded w st)
       ∨ (∃ a, get "SP_API_CLIENT_ID" = (Return a, loaded w st))
         ∧ get "SP_API_SECRET" = (Raise e, loaded w st)
       ∨ (∃ a b, get "SP_API_CLIENT_ID" = (Return a, loaded w st)
                 ∧ get "SP_API_SECRET" = (Return b, loaded w st))
         ∧ get "SP_API_TOKEN" = (Raise e, loaded w st) →
       Requests.fetch_access_token w st = (Raise e, loaded w st)).
Proof.
  split.
  - intros w st e get
      [Hid | [[(a & Hid) Hsecret] | [(a & b & Hid & Hsecret) Htoken]]];
      subst get; unfold Urllib.fetch_access_token, bind; cbv beta in *.
    + by rewrite Hid.
    + by rewrite Hid, Hsecret.
    + by rewrite Hid, Hsecret, Htoken.
  - intros w st e get
      [Hid | [[(a & Hid) Hsecret] | [(a & b & Hid & Hsecret) Htoken]]];
      subst get; unfold Requests.fetch_access_token, bind; cbv beta in *;
      change (Requests.load_dotenv w st) with (Return true, loaded w st);
      cbv iota.
    + by rewrite Hid.
    + by rewrite Hid, Hsecret.
    + by rewrite Hid, Hsecret, Htoken.
Qed.

Lemma fetch_access_token_stops_at_missing_credential_witness :
  ∃ e,
    Urllib.fetch_access_token MoreSamples.urllib_no_token Samples.st0
    = (Raise e, Samples.st0)
    ∧ ErrorKinds.MissingVariable "SP_API_TOKEN" e.
Proof.
  eexists. split.
  - apply (proj1 fetch_access_token_stops_at_missing_credential).
    right; right. split.
    + exists "id", "secret". split; reflexivity.
    + reflexivity.
  - split; reflexivity.
Defined.

Global Instance same_environ_preorder : PreOrder same_environ.
Proof.
  split.
  - by intros st.
  - intros st1 st2 st3 H12 H23. unfold same_environ in *. congruence.
Qed.

Global Instance same_sent_preorder : PreOrder same_sent.
Proof.
  split.
  - by intros st.
  - intros st1 st2 st3 H12 H23. unfold same_sent in *. congruence.
Qed.

Lemma bind_return {A B} (c : M A) (k : A → M B) st a st' :
  c st = (Return a, st') → bind c k st = k a st'.
Proof. intros Hc. unfold bind. by rewrite Hc. Qed.

Lemma bind_assoc {A B C} (c : M A) (f : A → M B) (g : B → M C) st :
  bind (bind c f) g st = bind c (λ a, bind (f a) g) st.
Proof. unfold bind. by destruct (c st) as [[a|e] st']. Qed.

Lemma try_except_bind_send {A B} (peer : Http.Request → result A) req
    (k : A → M B) handler st :
  (∀ a, preserves same_sent (k a)) →
  (∀ e h, handler e = Some h → preserves same_sent h) →
  sent (try_except (bind (send peer req) k) handler st).2 = sent st ++ [req].
Proof.
  intros Hk Hhandler. unfold try_except, bind, send.
  destruct (peer req) as [a|e].
  - pose proof (Hk a (mkProc (environ st) (stdout st) (stderr st)
                        (sent st ++ [req]))) as Hsent.
    destruct (k a _) as [[b|e] st'] eqn:Hrun; simpl in *; [done|].
    destruct (handler e) as [h|] eqn:Hh; [|done].
    rewrite (Hhandler _ _ Hh st'). done.
  - destruct (handler e) as [h|] eqn:Hh; [|done].
    by rewrite (Hhandler _ _ Hh _).
Qed.

Lemma bind_send {A B} (peer : Http.Request → result A) req (k : A → M B) st :
  (∀ a, preserves same_sent (k a)) →
  sent (bind (send peer req) k st).2 = sent st ++ [req].
Proof.
  intros Hk. unfold bind, send.
  destruct (peer req) as [a|e]; [|done].
  by rewrite (Hk a _).
Qed.

Lemma bind_preserved {A B} (R : relation Proc) (st0 : Proc)
    (c : M A) (k : A → M B) st :
  R st0 (c st).2 →
  (∀ a st', R st0 st' → R st0 (k a st').2) →
  R st0 (bind c k st).2.
Proof.
  intros Hc Hk. unfold bind.
  destruct (c st) as [[a|e] st']; simpl in *; [|done]. by apply Hk.
Qed.

Lemma same_sent_print_stderr s : preserves same_sent (print_stderr s).
Proof. by intros st. Qed.

Lemma same_environ_print_stderr s : preserves same_environ (print_stderr s).
Proof. by intros st. Qed.

Lemma same_environ_send {A} (peer : Http.Request → result A) req :
  preserves same_environ (send peer req).
Proof. by intros st. Qed.

(** X8. Once the three credentials are resolved, [fetch_access_token]
    issues exactly one request, the token request built from them,
    whatever the peer answers and whether it then returns or fails. *)
Theorem fetch_access_token_sends_one_request :
  (∀ w st client_id client_secret refresh_token,
     urllib w st client_id client_secret refresh_token →
     sent (Urllib.fetch_access_token w st).2
     = sent st ++ [urllib_request client_id client_secret refresh_token])
  ∧ (∀ w st client_id client_secret refresh_token,
       requests w st client_id client_secret refresh_token →
       sent (Requests.fetch_access_token w st).2
       = sent st ++ [requests_request client_id client_secret refresh_token]).
Proof.
  split.
  - intros w st client_id client_secret refresh_token (Hid & Hsecret & Htoken).
    unfold Urllib.fetch_access_token.
    rewrite (bind_return _ _ _ _ _ Hid), (bind_return _ _ _ _ _ Hsecret),
      (bind_return _ _ _ _ _ Htoken).
    unfold Urllib.urlopen. rewrite bind_assoc. apply bind_send.
    intros response. frame; apply same_sent_print_stderr.
  - intros w st client_id client_secret refresh_token (Hid & Hsecret & Htoken).
    unfold Requests.fetch_access_token.
    rewrite (bind_return _ _ _ _ (loaded w st)
               (eq_refl : Requests.load_dotenv w st
                          = (Return true, loaded w st))).
    rewrite (bind_return _ _ _ _ _ Hid), (bind_return _ _ _ _ _ Hsecret),
      (bind_return _ _ _ _ _ Htoken).
    change (sent st) with (sent (loaded w st)).
    apply (bind_preserved
             (λ st0 st',
                sent st'
                = sent st0
                  ++ [requests_request client_id client_secret refresh_token])
             (loaded w st)).
    + apply try_except_bind_send.
      * intros response. frame.
      * intros e h. case_match; [|done]. intros [= <-]. frame.
    + intros response st' Hst'. rewrite <- Hst'.
      lazymatch goal with
      | |- sent (?c st').2 = sent st' =>
          cut (preserves same_sent c); [intros Hc; apply Hc|]
      end.
      frame; apply same_sent_print_stderr.
Qed.

Lemma fetch_access_token_sends_one_request_witness :
  sent (Urllib.fetch_access_token
          (Samples.urllib_world
             (Samples.urllib_status 503 "Service Unavailable" "busy"))
          Samples.st0).2
  = [] ++ [urllib_request "id" "secret" "refresh"]
  ∧ sent (Requests.fetch_access_token
            (Samples.requests_world (Raise Samples.connection_error))
            Samples.st0).2
    = [] ++ [requests_request "id" "secret" "refresh"].
Proof.
  split.
  - apply (proj1 fetch_access_token_sends_one_request
             (Samples.urllib_world
                (Samples.urllib_status 503 "Service Unavailable" "busy"))
             Samples.st0).
    by vm_compute.
  - apply (proj2 fetch_access_token_sends_one_request
             (Samples.requests_world (Raise Samples.connection_error))
             Samples.st0).
    by vm_compute.
Defined.

(** X9. [fetch_access_token] of the root script leaves [os.environ] as it
    found it; the one under [src/] leaves in it exactly what [load_dotenv()]
    put there, so that no variable that was set changes its value. Both
    hold whether the call returns or fails. *)
Theorem fetch_access_token_environment w_urllib w_requests st :
  environ (Urllib.fetch_access_token w_urllib st).2 = environ st
  ∧ environ (Requests.fetch_access_token w_requests st).2
    = environ st ∪ Requests.dotenv_values w_requests
  ∧ ∀ name value,
      environ st !! name = Some value →
      environ (Requests.fetch_access_token w_requests st).2 !! name
      = Some value.
Proof.
  assert (environ (Requests.fetch_access_token w_requests st).2
          = environ st ∪ Requests.dotenv_values w_requests) as Hrequests.
  { unfold Requests.fetch_access_token.
    rewrite (bind_return _ _ _ _ (loaded w_requests st)
               (eq_refl : Requests.load_dotenv w_requests st
                          = (Return true, loaded w_requests st))).
    change (environ st ∪ Requests.dotenv_values w_requests)
      with (environ (loaded w_requests st)).
    lazymatch goal with
    | |- environ (?c ?s).2 = environ ?s =>
        cut (preserves same_environ c); [intros Hc; apply Hc|]
    end.
    frame; first [apply same_environ_send | apply same_environ_print_stderr]. }
  split; [|split; [done|]].
  - apply (urllib_fetch_preserves same_environ).
    + intros payload. apply same_environ_send.
    + apply same_environ_print_stderr.
  - intros name value Henv. rewrite Hrequests.
    by apply lookup_union_Some_l.
Qed.

Lemma fetch_access_token_environment_witness :
  environ (Requests.fetch_access_token MoreSamples.requests_partial
             MoreSamples.st_empty_token).2 !! "SP_API_SECRET"
  = Some "from-env".
Proof.
  apply (fetch_access_token_environment
           (Samples.urllib_world (Samples.urllib_ok Samples.token_body))).
  reflexivity.
Defined.

(** X10. The root script wraps nothing that goes wrong before the JSON is
    decoded: the exception of a failed connection, the [HTTPError] that
    [urlopen] raises for an answer outside 2xx, and the error of decoding a
    body that is not UTF-8 all leave [fetch_access_token] as they are,
    after the one request and with nothing printed. *)
Theorem urllib_fetch_access_token_errors_unwrapped
    w st client_id client_secret refresh_token :
  urllib w st client_id client_secret refresh_token →
  let req := urllib_request client_id client_secret refresh_token in
  (∀ cause,
     Urllib.peer w req = Raise cause →
     Urllib.fetch_access_token w st = (Raise cause, after_send st req))
  ∧ (∀ response,
       Urllib.peer w req = Return response →
       ¬ (200 ≤ Urllib.status response < 300) →
       Urllib.fetch_access_token w st
       = (Raise (Exn UrllibHTTPError
                   ("HTTP Error " +:+ pretty (Urllib.status response) +:+ ": "
                    +:+ Urllib.reason response) None),
          after_send st req))
  ∧ (∀ response cause,
       Urllib.peer w req = Return response →
       200 ≤ Urllib.status response < 300 →
       Urllib.read_decode_utf8 response = Raise cause →
       Urllib.fetch_access_token w st = (Raise cause, after_send st req)).
Proof.
  intros Hcred req. split; [|split].
  - intros cause Hpeer. by apply urllib_fetch_no_reply.
  - intros response Hpeer Hstatus. by apply urllib_fetch_http_error.
  - intros response cause Hpeer Hstatus Hread.
    destruct Hcred as (Hid & Hsecret & Htoken).
    unfold Urllib.fetch_access_token, bind. rewrite Hid, Hsecret, Htoken.
    subst req. unfold urllib_request in Hpeer.
    unfold Urllib.urlopen, bind, send. rewrite Hpeer.
    rewrite (status_2xx _ Hstatus). unfold ret at 1. unfold lift.
    by rewrite Hread.
Qed.

Lemma urllib_fetch_access_token_errors_unwrapped_witness :
  Urllib.fetch_access_token
    (Samples.urllib_world MoreSamples.urllib_garbled) Samples.st0
  = (Raise MoreSamples.not_utf8,
     after_send Samples.st0 (urllib_request "id" "secret" "refresh"))
  ∧ Urllib.fetch_access_token
      (Samples.urllib_world (Raise Samples.connection_refused)) Samples.st0
    = (Raise Samples.connection_refused,
       after_send Samples.st0 (urllib_request "id" "secret" "refresh")).
Proof.
  split.
  - refine (proj2 (proj2 (urllib_fetch_access_token_errors_unwrapped
                            (Samples.urllib_world MoreSamples.urllib_garbled)
                            Samples.st0 "id" "secret" "refresh" _))
              (Urllib.mkHTTPResponse 200 "OK" (Raise MoreSamples.not_utf8))
              _ _ _ _);
      first [reflexivity | by vm_compute | simpl; lia].
  - refine (proj1 (urllib_fetch_access_token_errors_unwrapped
                     (Samples.urllib_world (Raise Samples.connection_refused))
                     Samples.st0 "id" "secret" "refresh" _) _ _);
      first [reflexivity | by vm_compute].
Defined.

End token_client_more.

(** * The form body of the token request *)

Section request_payload.

Implicit Types (s t : string) (a c : ascii).

Lemma count_app c s t :
  Text.count c (s +:+ t) = (Text.count c s + Text.count c t)%nat.
Proof.
  induction s as [|a s IH]; [done|].
  change (Text.count c (String a (s +:+ t))
          = (Text.count c (String a s) + Text.count c t)%nat).
  simpl. rewrite IH. lia.
Qed.

Lemma count_contains c s : Text.count c s = O → Py.contains c s = false.
Proof.
  induction s as [|a s IH]; simpl; [done|].
  destruct (ascii_dec a c); [done|]. apply IH.
Qed.

(** What [quote_plus] writes for one character holds no [&], no [=] and
    nothing outside ASCII, and reads back as that character. *)
Lemma quote_plus_char_plain a :
  Text.count "&" (Urllib.quote_plus_char a) = O
  ∧ Text.count "=" (Urllib.quote_plus_char a) = O
  ∧ Text.any (λ x, negb (Text.is_ascii x)) (Urllib.quote_plus_char a) = false.
Proof. destruct a as [[] [] [] [] [] [] [] []]; by vm_compute. Qed.

Lemma unquote_plus_char a rest :
  FormDecoder.unquote_plus (Urllib.quote_plus_char a +:+ rest)
  = String a (FormDecoder.unquote_plus rest).
Proof. destruct a as [[] [] [] [] [] [] [] []]; reflexivity. Qed.

Lemma quote_plus_plain s :
  Text.count "&" (Urllib.quote_plus s) = O
  ∧ Text.count "=" (Urllib.quote_plus s) = O
  ∧ Text.any (λ x, negb (Text.is_ascii x)) (Urllib.quote_plus s) = false.
Proof.
  induction s as [|a s (IH1 & IH2 & IH3)]; [done|]. simpl.
  destruct (quote_plus_char_plain a) as (H1 & H2 & H3).
  by rewrite !count_app, any_app, H1, H2, H3, IH1, IH2, IH3.
Qed.

Lemma unquote_plus_quote_plus s :
  FormDecoder.unquote_plus (Urllib.quote_plus s) = s.
Proof.
  induction s as [|a s IH]; [done|]. simpl.
  by rewrite unquote_plus_char, IH.
Qed.

Lemma quote_plus_inj s t : Urllib.quote_plus s = Urllib.quote_plus t → s = t.
Proof.
  intros Heq. rewrite <- (unquote_plus_quote_plus s), Heq.
  apply unquote_plus_quote_plus.
Qed.

Lemma split_at_ampersand q q' r r' :
  Py.contains "&" q = false → Py.contains "&" q' = false →
  q +:+ String "&" r = q' +:+ String "&" r' → q = q' ∧ r = r'.
Proof.
  intros Hq Hq' Heq. apply (f_equal (Py.split1 "&")) in Heq.
  rewrite !split1_app in Heq by done. by simplify_eq.
Qed.

Lemma build_request_payload_unfold client_id client_secret refresh_token :
  Urllib.build_request_payload client_id client_secret refresh_token
  = "client_id=" +:+ Urllib.quote_plus client_id
    +:+ "&client_secret=" +:+ Urllib.quote_plus client_secret
    +:+ "&grant_type=refresh_token&refresh_token="
    +:+ Urllib.quote_plus refresh_token.
Proof. reflexivity. Qed.

(** X11. Whatever the credentials hold, the form body that
    [build_request_payload] of the root script encodes is plain ASCII and
    has exactly its four fields: the credentials bring in no [&] and no
    [=], so that the body has three [&] and four [=]. *)
Theorem build_request_payload_four_fields client_id client_secret refresh_token :
  let payload :=
    Urllib.build_request_payload client_id client_secret refresh_token in
  payload
  = "client_id=" +:+ Urllib.quote_plus client_id
    +:+ "&client_secret=" +:+ Urllib.quote_plus client_secret
    +:+ "&grant_type=refresh_token&refresh_token="
    +:+ Urllib.quote_plus refresh_token
  ∧ Py.contains "&" (Urllib.quote_plus client_id) = false
  ∧ Py.contains "&" (Urllib.quote_plus client_secret) = false
  ∧ Py.contains "&" (Urllib.quote_plus refresh_token) = false
  ∧ Text.count "&" payload = 3%nat
  ∧ Text.count "=" payload = 4%nat
  ∧ Text.any (λ x, negb (Text.is_ascii x)) payload = false.
Proof.
  intros payload. subst payload. rewrite build_request_payload_unfold.
  destruct (quote_plus_plain client_id) as (Ha1 & Ha2 & Ha3).
  destruct (quote_plus_plain client_secret) as (Hb1 & Hb2 & Hb3).
  destruct (quote_plus_plain refresh_token) as (Hc1 & Hc2 & Hc3).
  split; [done|]. repeat (split; [by apply count_contains|]).
  rewrite !count_app, !any_app, Ha1, Ha2, Ha3, Hb1, Hb2, Hb3, Hc1, Hc2, Hc3.
  done.
Qed.

(** X12. The form body determines the credentials: two calls of
    [build_request_payload] of the root script that give the same body were
    given the same client id, the same secret and the same refresh
    token. *)
Theorem build_request_payload_inj
    client_id client_secret refresh_token client_id' client_secret'
    refresh_token' :
  Urllib.build_request_payload client_id client_secret refresh_token
  = Urllib.build_request_payload client_id' client_secret' refresh_token' →
  client_id = client_id' ∧ client_secret = client_secret'
  ∧ refresh_token = refresh_token'.
Proof.
  rewrite !build_request_payload_unfold. intros Heq.
  destruct (quote_plus_plain client_id) as (Ha & _ & _).
  destruct (quote_plus_plain client_id') as (Ha' & _ & _).
  destruct (quote_plus_plain client_secret) as (Hb & _ & _).
  destruct (quote_plus_plain client_secret') as (Hb' & _ & _).
  apply count_contains in Ha, Ha', Hb, Hb'.
  apply (inj (String.app "client_id=")) in Heq.
  change ("&client_secret=" +:+ ?x) with (String "&" ("client_secret=" +:+ x))
    in Heq.
  apply split_at_ampersand in Heq as [Hid%quote_plus_inj Heq]; [|done..].
  apply (inj (String.app "client_secret=")) in Heq.
  change ("&grant_type=refresh_token&refresh_token=" +:+ ?x)
    with (String "&" ("grant_type=refresh_token&refresh_token=" +:+ x)) in Heq.
  apply split_at_ampersand in Heq as [Hsecret%quote_plus_inj Heq]; [|done..].
  apply (inj (String.app "grant_type=refresh_token&refresh_token=")) in Heq.
  apply quote_plus_inj in Heq. done.
Qed.

Lemma build_request_payload_inj_witness :
  "id" = "id" ∧ "a b" = "a b" ∧ "c&d" = "c&d".
Proof.
  apply build_request_payload_inj. reflexivity.
Defined.

End request_payload.

(** * Further properties of the sandbox caller *)

Section sandbox_caller_more.

Import Effects Frame Credentials.

(** X13. [fetch_example] reads only the entry NA of the table it is given:
    without that entry it fails with a [KeyError] before any request and
    any output; with it, the one request goes to the host of that entry,
    whatever the other entries are. *)
Theorem fetch_example_reads_the_NA_entry w endpoints token st :
  (endpoints !! "NA" = None →
   ListingEditor.fetch_example w endpoints token st
   = (Raise (Exn KeyError "'NA'" None), st))
  ∧ (∀ host,
       endpoints !! "NA" = Some host →
       sent (ListingEditor.fetch_example w endpoints token st).2
       = sent st ++ [orders_request host token]).
Proof.
  unfold ListingEditor.fetch_example, ListingEditor.dict_getitem. split.
  - intros ->. reflexivity.
  - intros host ->. unfold bind at 1. unfold ret at 1. cbv iota.
    fold (ListingEditor.get_request).
    apply bind_send. intros response. unfold Requests.json.
    frame; by intros st'.
Qed.

Lemma fetch_example_reads_the_NA_entry_witness :
  ListingEditor.fetch_example
    (Samples.requests_world (Samples.requests_reply 200 "OK" Samples.token_body))
    MoreSamples.endpoints_without_NA "abc123" Samples.st0
  = (Raise (Exn KeyError "'NA'" None), Samples.st0)
  ∧ sent (ListingEditor.fetch_example
            (Samples.requests_world
               (Samples.requests_reply 200 "OK" Samples.token_body))
            {[ "NA" := "localhost" ]} "abc123" Samples.st0).2
    = [] ++ [orders_request "localhost" "abc123"].
Proof.
  split.
  - apply (proj1 (fetch_example_reads_the_NA_entry _ _ _ _)). reflexivity.
  - apply (proj2 (fetch_example_reads_the_NA_entry _ {[ "NA" := "localhost" ]}
                    "abc123" Samples.st0) "localhost").
    reflexivity.
Defined.

(** X14. [fetch_example] handles no error and checks no status: the
    exception of a failed exchange leaves it as it is, with nothing
    printed; a body that is not JSON makes it fail with the decoding error
    after it has printed the status code. *)
Theorem fetch_example_failures w token st :
  let req := sandbox_orders_request token in
  (∀ cause,
     Requests.peer w req = Raise cause →
     ListingEditor.fetch_example w ListingEditor.sandbox_endpoints token st
     = (Raise cause, after_send st req))
  ∧ (∀ response msg,
       Requests.peer w req = Return response →
       Requests.json_body response = Invalid msg →
       ListingEditor.fetch_example w ListingEditor.sandbox_endpoints token st
       = (Raise (Exn RequestsJSONDecodeError msg None),
          mkProc (environ st)
            (stdout st ++ [pretty (Requests.status_code response)])
            (stderr st) (sent st ++ [req]))).
Proof.
  intros req. subst req. rewrite fetch_example_unfold.
  unfold bind, send, print, Requests.json. split.
  - by intros cause ->.
  - by intros response msg -> ->.
Qed.

Lemma fetch_example_failures_witness :
  ListingEditor.fetch_example
    (Samples.requests_world (Raise Samples.connection_error))
    ListingEditor.sandbox_endpoints "abc123" Samples.st0
  = (Raise Samples.connection_error,
     after_send Samples.st0 (sandbox_orders_request "abc123"))
  ∧ stdout
      (ListingEditor.fetch_example
         (Samples.requests_world
            (Samples.requests_reply 502 "Bad Gateway" "not json"))
         ListingEditor.sandbox_endpoints "abc123" Samples.st0).2
    = ["502"].
Proof.
  split.
  - apply (proj1 (fetch_example_failures _ _ _)). reflexivity.
  - erewrite (proj2 (fetch_example_failures _ _ _)
                (Requests.mkResponse 502 "Bad Gateway" Requests.TOKEN_ENDPOINT
                   "not json" (Samples.decoder "not json")));
      reflexivity.
Defined.

End sandbox_caller_more.

(** * The resolver over the text of the file *)

Section resolver_over_text.

Implicit Types (name text line : string) (st : Proc).

(** X15. The test for an empty value looks at the last assignment only:
    when the last line of the file that assigns a variable gives it the
    empty value, [get_env_value] over the loaded file goes to the process
    environment, whatever earlier lines gave the variable. *)
Theorem get_env_value_last_assignment_empty text before line after name st :
  Py.splitlines text = before ++ line :: after →
  Urllib.env_line ∅ line = {[ name := EmptyString ]} →
  (∀ later value, later ∈ after →
     Urllib.env_line ∅ later ≠ {[ name := value ]}) →
  Urllib.get_env_value name (Urllib.load_env_file (Some text)) st
  = Urllib.environ_or_missing name st.
Proof.
  intros Hlines Hline%env_line_alone Hlater.
  assert (Urllib.load_env_file (Some text) !! name = Some EmptyString) as Hfile.
  { rewrite load_env_file_assign, Hlines, foldl_app. simpl.
    apply foldl_assign_keeps.
    - rewrite (assign_Some _ _ _ _ Hline). apply lookup_insert_eq.
    - intros later value Hin Hassign%env_line_alone. by eapply Hlater. }
  unfold Urllib.get_env_value. by rewrite Hfile.
Qed.

Lemma get_env_value_last_assignment_empty_witness :
  Urllib.get_env_value "SP_API_TOKEN"
    (Urllib.load_env_file (Some MoreSamples.emptied_env)) MoreSamples.st_token
  = Urllib.environ_or_missing "SP_API_TOKEN" MoreSamples.st_token
  ∧ Urllib.environ_or_missing "SP_API_TOKEN" MoreSamples.st_token
    = (Return "from-env", MoreSamples.st_token).
Proof.
  split; [|reflexivity].
  apply (get_env_value_last_assignment_empty MoreSamples.emptied_env
           ["SP_API_TOKEN=old"] "SP_API_TOKEN=" []).
  - reflexivity.
  - by vm_compute.
  - intros later value Hin. by apply not_elem_of_nil in Hin.
Defined.

End resolver_over_text.
